(** * Exchange simulator: the trading core, embedded and verified

    A shallow embedding of [src/config/settings.py], [src/trading/models.py],
    [src/trading/balance_manager.py] and [src/trading/order_engine.py].

    Conventions of the embedding.
    - Python floats are read as exact rationals ([Q]); numeric results are
      compared with [==] ([Qeq]).  Division by zero is made explicit wherever
      Python would raise [ZeroDivisionError].
    - A Python dict is an insertion-ordered association list ([dict]): the
      iteration order of [positions.items()] and [orders.values()] is part of
      the behaviour of [process_candle].
    - [Position] objects are mutable and shared between the position book and
      the list built by [_check_tp_sl_improved]; the book therefore maps a key
      to a reference into a store of objects ([BalanceManager.heap]), and an
      object survives its removal from the book.
    - [uuid.uuid4()] is an input of the function that draws it; wall-clock
      fields ([created_time], [executed_time]) and logging are left out. *)

From Stdlib Require Import QArith ZArith String List Bool Sorted Lia Lqa.
Import ListNotations.
Open Scope string_scope.
Open Scope Q_scope.

(** ** Python primitives *)

(** [a < b] on floats. *)
Definition Qltb (a b : Q) : bool := negb (Qle_bool b a).

(** Built-in [max(a, b)]: the first argument wins ties. *)
Definition py_max (a b : Q) : Q := if Qltb a b then b else a.

(** Truthiness of an [Optional[float]]: [None] and [0.0] are falsy. *)
Definition truthy (x : option Q) : option Q :=
  match x with
  | Some v => if Qeq_bool v 0 then None else Some v
  | None => None
  end.

(** [x or d] for an [Optional[int]]. *)
Definition int_or (x : option Z) (d : Z) : Z :=
  match x with
  | Some v => if Z.eqb v 0 then d else v
  | None => d
  end.

(** [x or d] for an [Optional[float]]. *)
Definition float_or (x : option Q) (d : Q) : Q :=
  match truthy x with Some v => v | None => d end.

Section Dict.
Context {V : Type}.

(** Insertion-ordered dictionary with string keys. *)
Definition dict := list (string * V).

Fixpoint dict_get (k : string) (d : dict) : option V :=
  match d with
  | [] => None
  | (k', v) :: r => if String.eqb k' k then Some v else dict_get k r
  end.

(** [k in d] *)
Definition dict_mem (k : string) (d : dict) : bool :=
  match dict_get k d with Some _ => true | None => false end.

(** [d[k] = v]: an existing key keeps its place, a new key goes last. *)
Fixpoint dict_set (k : string) (v : V) (d : dict) : dict :=
  match d with
  | [] => [(k, v)]
  | (k', v') :: r =>
      if String.eqb k' k then (k', v) :: r else (k', v') :: dict_set k v r
  end.

(** [del d[k]]: no entry under [k] is left. *)
Definition dict_del (k : string) (d : dict) : dict :=
  filter (fun kv => negb (String.eqb (fst kv) k)) d.

Definition dict_keys (d : dict) : list string := map fst d.
Definition dict_values (d : dict) : list V := map snd d.
End Dict.
Arguments dict V : clear implicits.

(** Assignment through a reference: [l[r] = x] on the object store. *)
Fixpoint store_set {A : Type} (r : nat) (x : A) (l : list A) : list A :=
  match l, r with
  | [], _ => []
  | _ :: t, O => x :: t
  | h :: t, S r' => h :: store_set r' x t
  end.

(** The slice [l[start:]]: a negative start counts from the end, and both
    ends are clamped to the list. *)
Definition slice_from {A : Type} (start : Z) (l : list A) : list A :=
  let n := Z.of_nat (length l) in
  let s := if (start <? 0)%Z then Z.max (start + n) 0 else Z.min start n in
  skipn (Z.to_nat s) l.

(** Truthiness of an [Optional[str]]: [None] and the empty string are
    falsy. *)
Definition truthy_str (x : option string) : option string :=
  match x with
  | Some s => if String.eqb s "" then None else Some s
  | None => None
  end.

(** ** models.py *)

Inductive OrderSide := BUY | SELL.
Inductive OrderType := MARKET | LIMIT.
Inductive PositionSide := LONG | SHORT.
Inductive OrderStatus := PENDING | FILLED | CANCELLED | PARTIALLY_FILLED.

(** The [.value] of the string enums. *)
Definition OrderSide_value (s : OrderSide) : string :=
  match s with BUY => "BUY" | SELL => "SELL" end.
Definition OrderType_value (t : OrderType) : string :=
  match t with MARKET => "MARKET" | LIMIT => "LIMIT" end.
Definition PositionSide_value (s : PositionSide) : string :=
  match s with LONG => "LONG" | SHORT => "SHORT" end.

Definition OrderSide_eqb (a b : OrderSide) : bool :=
  match a, b with BUY, BUY | SELL, SELL => true | _, _ => false end.
Definition OrderType_eqb (a b : OrderType) : bool :=
  match a, b with MARKET, MARKET | LIMIT, LIMIT => true | _, _ => false end.

Module Order.
(** [leverage] is not a dataclass field: [create_order] attaches it as an
    attribute, an order restored from storage has none ([None] here). *)
Record t := mk {
  id : string;
  symbol : string;
  side : OrderSide;
  position_side : PositionSide;
  order_type : OrderType;
  quantity : Q;
  price : Q;
  executed_price : Q;
  executed_quantity : Q;
  status : OrderStatus;
  take_profit_price : option Q;
  stop_loss_price : option Q;
  commission : Q;
  leverage : option Z
}.

(** The four field assignments that end [BalanceManager.execute_order]. *)
Definition fill (o : t) (ep eq c : Q) : t :=
  mk (id o) (symbol o) (side o) (position_side o) (order_type o)
     (quantity o) (price o) ep eq FILLED
     (take_profit_price o) (stop_loss_price o) c (leverage o).

Definition set_status (o : t) (s : OrderStatus) : t :=
  mk (id o) (symbol o) (side o) (position_side o) (order_type o)
     (quantity o) (price o) (executed_price o) (executed_quantity o) s
     (take_profit_price o) (stop_loss_price o) (commission o) (leverage o).
End Order.

Module Position.
Record t := mk {
  symbol : string;
  side : PositionSide;
  quantity : Q;
  entry_price : Q;
  current_price : Q;
  unrealized_pnl : Q;
  realized_pnl : Q;
  leverage : Z;
  margin : Q;
  take_profit_price : option Q;
  stop_loss_price : option Q
}.

(** The dataclass defaults. *)
Definition default : t :=
  mk "" LONG 0 0 0 0 0 10%Z 0 None None.

Definition set_quantity (p : t) (q : Q) : t :=
  mk (symbol p) (side p) q (entry_price p) (current_price p)
     (unrealized_pnl p) (realized_pnl p) (leverage p) (margin p)
     (take_profit_price p) (stop_loss_price p).

Definition set_entry_price (p : t) (e : Q) : t :=
  mk (symbol p) (side p) (quantity p) e (current_price p)
     (unrealized_pnl p) (realized_pnl p) (leverage p) (margin p)
     (take_profit_price p) (stop_loss_price p).

Definition set_realized_pnl (p : t) (x : Q) : t :=
  mk (symbol p) (side p) (quantity p) (entry_price p) (current_price p)
     (unrealized_pnl p) x (leverage p) (margin p)
     (take_profit_price p) (stop_loss_price p).

Definition set_mark (p : t) (cp upnl : Q) : t :=
  mk (symbol p) (side p) (quantity p) (entry_price p) cp
     upnl (realized_pnl p) (leverage p) (margin p)
     (take_profit_price p) (stop_loss_price p).
End Position.

Module Balance.
Record t := mk {
  asset : string;
  free : Q;
  locked : Q;
  total : Q
}.

(** [b.free -= x; b.total = b.free + b.locked] *)
Definition debit (b : t) (x : Q) : t :=
  mk (asset b) (free b - x) (locked b) ((free b - x) + locked b).

(** [b.free += x; b.total = b.free + b.locked] *)
Definition credit (b : t) (x : Q) : t :=
  mk (asset b) (free b + x) (locked b) ((free b + x) + locked b).
End Balance.

(** ** config/settings.py *)

Module Settings.
Definition DEFAULT_LEVERAGE : Z := 10.
Definition DEFAULT_BALANCE : Q := 1000.
Definition COMMISSION_RATE : Q := 7 # 10000.
Definition MIN_COMMISSION : Q := 4 # 100.

(** volume in USDT -> slippage percentage; the keys are Python ints. *)
Definition SLIPPAGE_CONFIG : list (Z * Q) :=
  [ (0%Z, 1 # 10000); (100%Z, 5 # 10000);
    (1000%Z, 1 # 1000); (10000%Z, 2 # 1000) ].

(** [sorted(items, reverse=True)]: insertion into a list kept in
    decreasing key order (the keys of a dict are distinct, so the value
    never decides). *)
Fixpoint insert_desc (x : Z * Q) (l : list (Z * Q)) : list (Z * Q) :=
  match l with
  | [] => [x]
  | y :: r => if (fst y <=? fst x)%Z then x :: y :: r
              else y :: insert_desc x r
  end.

Definition sorted_reverse (l : list (Z * Q)) : list (Z * Q) :=
  fold_right insert_desc [] l.

(** [cfg[k]] on the int-keyed table; [None] is [KeyError]. *)
Fixpoint config_get (k : Z) (cfg : list (Z * Q)) : option Q :=
  match cfg with
  | [] => None
  | (k', v) :: r => if (k' =? k)%Z then Some v else config_get k r
  end.

(** First entry, in the given order, whose threshold is reached. *)
Fixpoint first_reached (volume_usdt : Q) (l : list (Z * Q)) : option Q :=
  match l with
  | [] => None
  | (threshold, slippage) :: r =>
      if Qle_bool (inject_Z threshold) volume_usdt then Some slippage
      else first_reached volume_usdt r
  end.

(** [get_slippage] over an arbitrary table. *)
Definition get_slippage_in (cfg : list (Z * Q)) (volume_usdt : Q)
  : option Q :=
  match first_reached volume_usdt (sorted_reverse cfg) with
  | Some s => Some s
  | None => config_get 0%Z cfg
  end.

(** [Settings.get_slippage]; the table has key 0, so the last branch is
    never taken (lemma [get_slippage_in_config] below). *)
Definition get_slippage (volume_usdt : Q) : Q :=
  match get_slippage_in SLIPPAGE_CONFIG volume_usdt with
  | Some s => s
  | None => 0
  end.
End Settings.

(** ** trading/balance_manager.py *)

Module BalanceManager.
(** [positions] maps a position key to a reference; [heap] holds the
    [Position] objects ever created, a reference being an index into it. *)
Record t := mk {
  initial_balance : Q;
  balances : dict Balance.t;
  positions : dict nat;
  heap : list Position.t;
  total_pnl : Q
}.

Definition set_balances (bm : t) (b : dict Balance.t) : t :=
  mk (initial_balance bm) b (positions bm) (heap bm) (total_pnl bm).
Definition set_positions (bm : t) (p : dict nat) : t :=
  mk (initial_balance bm) (balances bm) p (heap bm) (total_pnl bm).
Definition set_heap (bm : t) (h : list Position.t) : t :=
  mk (initial_balance bm) (balances bm) (positions bm) h (total_pnl bm).
Definition set_total_pnl (bm : t) (x : Q) : t :=
  mk (initial_balance bm) (balances bm) (positions bm) (heap bm) x.

(** Reading through a reference. *)
Definition deref (bm : t) (r : nat) : Position.t :=
  nth r (heap bm) Position.default.

(** Writing a field of the object behind a reference. *)
Definition assign (bm : t) (r : nat) (p : Position.t) : t :=
  set_heap bm (store_set r p (heap bm)).

(** [BalanceManager.__init__] (lines 18-30). *)
Definition __init__ (initial_balance : option Q) : t :=
  let ib := float_or initial_balance Settings.DEFAULT_BALANCE in
  mk ib [("USDT", Balance.mk "USDT" ib 0 ib)] [] [] 0.

Definition get_balance (bm : t) (asset : string) : option Balance.t :=
  dict_get asset (balances bm).

(** [get_position]: a lookup of the bare symbol in the book. *)
Definition get_position (bm : t) (symbol : string) : option Position.t :=
  option_map (deref bm) (dict_get symbol (positions bm)).

Definition get_all_positions (bm : t) : list Position.t :=
  map (deref bm) (dict_values (positions bm)).

Definition calculate_commission (order_value : Q) : Q :=
  py_max (order_value * Settings.COMMISSION_RATE) Settings.MIN_COMMISSION.

Definition calculate_slippage (order_value current_price : Q) : Q :=
  current_price * Settings.get_slippage order_value.

(** Why [can_place_order] says no. *)
Inductive Refusal :=
| NoUSDTBalance
| InsufficientBalance (total_required available : Q).

(** [can_place_order] (lines 75-104): [None] is [(True, "")]. *)
Definition can_place_order (bm : t) (symbol side : string)
    (quantity price : Q) (leverage : option Z) : option Refusal :=
  let leverage := int_or leverage Settings.DEFAULT_LEVERAGE in
  let order_value := quantity * price in
  let required_margin := order_value / inject_Z leverage in
  let commission := calculate_commission order_value in
  match dict_get "USDT" (balances bm) with
  | None => Some NoUSDTBalance
  | Some usdt_balance =>
      let total_required := required_margin + commission in
      if Qltb (Balance.free usdt_balance) total_required
      then Some (InsufficientBalance total_required
                   (Balance.free usdt_balance))
      else None
  end.

(** [f"{order.symbol}_{order.position_side.value}"] *)
Definition position_key (symbol : string) (ps : PositionSide) : string :=
  symbol ++ "_" ++ PositionSide_value ps.

(** Line 121: the margin of a fill; [None] is [ZeroDivisionError]. *)
Definition required_margin_of (order : Order.t) (order_value : Q)
  : option Q :=
  match Order.leverage order with
  | Some l => if Z.eqb l 0 then None
              else Some (order_value / inject_Z l)
  | None => Some (order_value / inject_Z Settings.DEFAULT_LEVERAGE)
  end.

(** Lines 145-147. *)
Definition realized_pnl_of (order : Order.t) (position : Position.t)
    (executed_price executed_quantity : Q) : Q :=
  let realized_pnl :=
    (executed_price - Position.entry_price position) * executed_quantity in
  if String.eqb (PositionSide_value (Order.position_side order)) "SHORT"
  then - realized_pnl else realized_pnl.

(** [execute_order] (lines 106-186): the boolean is the returned value; the
    manager and the order are returned as the call leaves them, also when an
    exception was caught after the balance had been debited. *)
Definition execute_order (bm : t) (order : Order.t)
    (executed_price executed_quantity : Q) : bool * t * Order.t :=
  let order_value := executed_quantity * executed_price in
  let commission := calculate_commission order_value in
  match required_margin_of order order_value with
  | None => (false, bm, order)
  | Some required_margin =>
  match dict_get "USDT" (balances bm) with
  | None => (false, bm, order)
  | Some usdt_balance =>
    let usdt1 := Balance.debit usdt_balance (required_margin + commission) in
    let bm1 := set_balances bm (dict_set "USDT" usdt1 (balances bm)) in
    let key := position_key (Order.symbol order)
                            (Order.position_side order) in
    let filled := Order.fill order executed_price executed_quantity
                             commission in
    match dict_get key (positions bm1) with
    | Some r =>
      let position := deref bm1 r in
      if String.eqb (OrderSide_value (Order.side order))
                    (PositionSide_value (Order.position_side order))
      then
        (* Adding to position *)
        let total_quantity := Position.quantity position + executed_quantity in
        let total_value :=
          Position.quantity position * Position.entry_price position
          + executed_quantity * executed_price in
        if Qeq_bool total_quantity 0 then (false, bm1, order)
        else
          let position1 :=
            Position.set_quantity
              (Position.set_entry_price position
                 (total_value / total_quantity))
              total_quantity in
          (true, assign bm1 r position1, filled)
      else
        (* Reducing position *)
        let position1 :=
          Position.set_quantity position
            (Position.quantity position - executed_quantity) in
        let bm2 := assign bm1 r position1 in
        if Qle_bool (Position.quantity position1) 0 then
          (* Position closed *)
          let realized_pnl :=
            realized_pnl_of order position1 executed_price
                            executed_quantity in
          let position2 :=
            Position.set_realized_pnl position1
              (Position.realized_pnl position1 + realized_pnl) in
          let bm3 := set_total_pnl (assign bm2 r position2)
                                   (total_pnl bm2 + realized_pnl) in
          (* Return margin to balance *)
          let usdt2 := Balance.credit usdt1 (Position.margin position2) in
          let bm4 := set_balances bm3
                       (dict_set "USDT" usdt2 (balances bm3)) in
          (true, set_positions bm4 (dict_del key (positions bm4)), filled)
        else (true, bm2, filled)
    | None =>
      (* Create new position *)
      let position :=
        Position.mk (Order.symbol order) (Order.position_side order)
          executed_quantity executed_price executed_price 0 0
          Settings.DEFAULT_LEVERAGE required_margin
          (Order.take_profit_price order) (Order.stop_loss_price order) in
      let r := length (heap bm1) in
      let bm2 := set_heap bm1 (heap bm1 ++ [position]) in
      (true, set_positions bm2 (dict_set key r (positions bm2)), filled)
    end
  end
  end.

(** One iteration of the loop of [update_position_prices]. *)
Definition mark (symbol : string) (current_price : Q) (p : Position.t)
  : Position.t :=
  if String.eqb (Position.symbol p) symbol then
    if String.eqb (PositionSide_value (Position.side p)) "LONG" then
      Position.set_mark p current_price
        ((current_price - Position.entry_price p) * Position.quantity p)
    else
      Position.set_mark p current_price
        ((Position.entry_price p - current_price) * Position.quantity p)
  else p.

Definition update_position_prices (bm : t) (symbol : string)
    (current_price : Q) : t :=
  fold_left
    (fun bm' kr => assign bm' (snd kr)
                     (mark symbol current_price (deref bm' (snd kr))))
    (positions bm) bm.

(** [check_tp_sl]: one flag per position, hence one entry per position. *)
Definition should_close (p : Position.t) (high low : Q) : bool :=
  let tp :=
    match truthy (Position.take_profit_price p) with
    | Some tp =>
        match Position.side p with
        | LONG => Qle_bool tp high
        | SHORT => Qle_bool low tp
        end
    | None => false
    end in
  let sl :=
    match truthy (Position.stop_loss_price p) with
    | Some sl =>
        match Position.side p with
        | LONG => Qle_bool low sl
        | SHORT => Qle_bool sl high
        end
    | None => false
    end in
  tp || sl.

Definition check_tp_sl (bm : t) (symbol : string)
    (current_price high low : Q) : list nat :=
  flat_map
    (fun kr =>
       let p := deref bm (snd kr) in
       if String.eqb (Position.symbol p) symbol
       then if should_close p high low then [snd kr] else []
       else [])
    (positions bm).
(** [get_all_balances] *)
Definition get_all_balances (bm : t) : list Balance.t :=
  dict_values (balances bm).
End BalanceManager.

(** ** trading/order_engine.py *)

Module OrderEngine.
Record t := mk {
  balance_manager : BalanceManager.t;
  orders : dict Order.t;
  order_history : list Order.t
}.

(** [OrderEngine.__init__] *)
Definition __init__ (bm : BalanceManager.t) : t := mk bm [] [].

Definition set_balance_manager (e : t) (bm : BalanceManager.t) : t :=
  mk bm (orders e) (order_history e).

(** The reasons [create_order] returns with [success = False]:
    "Invalid side", "Invalid order type", "Invalid quantity", the message of
    [can_place_order], and "Error creating order: ..." of the handler. *)
Inductive Reason :=
| InvalidSide
| InvalidOrderType
| InvalidQuantity
| Refused (r : BalanceManager.Refusal)
| CreationError.

(** [OrderSide(side)] and [OrderType(order_type)]; [None] is [ValueError]. *)
Definition OrderSide_of (s : string) : option OrderSide :=
  if String.eqb s "BUY" then Some BUY
  else if String.eqb s "SELL" then Some SELL else None.
Definition OrderType_of (s : string) : option OrderType :=
  if String.eqb s "MARKET" then Some MARKET
  else if String.eqb s "LIMIT" then Some LIMIT else None.

(** [x in [a, b]] on strings. *)
Definition str_in (x : string) (l : list string) : bool :=
  existsb (String.eqb x) l.

(** [create_order] (lines 30-107); [uuid] is the id drawn by the [Order]
    constructor. *)
Definition create_order (e : t) (uuid symbol side : string) (quantity : Q)
    (order_type : string) (price : Q) (take_profit stop_loss : option Q)
    (leverage : option Z) : (Reason + Order.t) * t :=
  if negb (str_in side ["BUY"; "SELL"]) then (inl InvalidSide, e)
  else if negb (str_in order_type ["MARKET"; "LIMIT"])
  then (inl InvalidOrderType, e)
  else if Qle_bool quantity 0 then (inl InvalidQuantity, e)
  else
    let position_side := if String.eqb side "BUY" then LONG else SHORT in
    let leverage := int_or leverage Settings.DEFAULT_LEVERAGE in
    let execution_price :=
      if String.eqb order_type "MARKET" then 0 else price in
    match OrderSide_of side, OrderType_of order_type with
    | Some oside, Some otype =>
        let order :=
          Order.mk uuid symbol oside position_side otype quantity price
                   0 0 PENDING take_profit stop_loss 0 (Some leverage) in
        match BalanceManager.can_place_order (balance_manager e) symbol side
                quantity execution_price (Some leverage) with
        | Some refusal => (inl (Refused refusal), e)
        | None =>
            (inr order,
             mk (balance_manager e) (dict_set uuid order (orders e))
                (order_history e))
        end
    | _, _ => (inl CreationError, e)
    end.

(** Lines 125-133: the price handed to [execute_order]. *)
Definition execution_price_of (order : Order.t) (current_price : Q) : Q :=
  let order_value := Order.quantity order * current_price in
  let slippage :=
    BalanceManager.calculate_slippage order_value current_price in
  if OrderSide_eqb (Order.side order) BUY
  then current_price + slippage
  else current_price - slippage.

(** [execute_market_order] (lines 109-153): returned value, engine and
    order afterwards. *)
Definition execute_market_order (e : t) (order : Order.t)
    (current_price high low : Q) : bool * t * Order.t :=
  let execution_price := execution_price_of order current_price in
  let '(success, bm, order') :=
    BalanceManager.execute_order (balance_manager e) order execution_price
                                 (Order.quantity order) in
  if success then
    (true,
     mk bm
        (if dict_mem (Order.id order) (orders e)
         then dict_del (Order.id order) (orders e) else orders e)
        (order_history e ++ [order']),
     order')
  else (false, mk bm (orders e) (order_history e), order').

(** What [_check_tp_sl_improved] appends for one position: the take-profit
    test, then, independently, the stop-loss test. *)
Definition triggers_of (r : nat) (p : Position.t) (high low : Q)
  : list (nat * string * Q) :=
  (match truthy (Position.take_profit_price p) with
   | Some tp =>
       if String.eqb (PositionSide_value (Position.side p)) "LONG"
          && Qle_bool tp high then [(r, "TP", tp)]
       else if String.eqb (PositionSide_value (Position.side p)) "SHORT"
               && Qle_bool low tp then [(r, "TP", tp)]
       else []
   | None => []
   end)
  ++
  (match truthy (Position.stop_loss_price p) with
   | Some sl =>
       if String.eqb (PositionSide_value (Position.side p)) "LONG"
          && Qle_bool low sl then [(r, "SL", sl)]
       else if String.eqb (PositionSide_value (Position.side p)) "SHORT"
               && Qle_bool sl high then [(r, "SL", sl)]
       else []
   | None => []
   end).

(** [_check_tp_sl_improved] (lines 204-243): the list of
    (position, trigger_type, trigger_price). *)
Definition _check_tp_sl_improved (e : t) (symbol : string)
    (open_price high low close : Q) : list (nat * string * Q) :=
  flat_map
    (fun kr =>
       let p := BalanceManager.deref (balance_manager e) (snd kr) in
       if String.eqb (Position.symbol p) symbol
       then triggers_of (snd kr) p high low else [])
    (BalanceManager.positions (balance_manager e)).

(** One iteration of the first loop of [process_candle]: the closing order
    of a trigger, created and executed at the trigger price.  The position
    is read through its reference when the iteration runs. *)
Definition close_one (e : t) (uuid symbol : string) (high low : Q)
    (trigger : nat * string * Q) : t :=
  let '(r, trigger_type, trigger_price) := trigger in
  let position := BalanceManager.deref (balance_manager e) r in
  let closing_side :=
    if String.eqb (PositionSide_value (Position.side position)) "LONG"
    then "SELL" else "BUY" in
  match create_order e uuid symbol closing_side (Position.quantity position)
          "MARKET" 0 None None None with
  | (inr order, e1) =>
      snd (fst (execute_market_order e1 order trigger_price high low))
  | (inl _, e1) => e1
  end.

(** The first loop of [process_candle]; [uuid4 n] is the id drawn in the
    [n]-th iteration. *)
Fixpoint close_triggered (e : t) (uuid4 : nat -> string) (n : nat)
    (symbol : string) (high low : Q) (l : list (nat * string * Q)) : t :=
  match l with
  | [] => e
  | trigger :: rest =>
      close_triggered (close_one e (uuid4 n) symbol high low trigger)
                      uuid4 (S n) symbol high low rest
  end.

(** The second loop of [process_candle]. *)
Definition execute_pending (e : t) (symbol : string) (high low close : Q)
  : t :=
  let pending_orders :=
    filter (fun order =>
              String.eqb (Order.symbol order) symbol
              && OrderType_eqb (Order.order_type order) MARKET)
           (dict_values (orders e)) in
  fold_left
    (fun e' order =>
       snd (fst (execute_market_order e' order close high low)))
    pending_orders e.

(** [process_candle] (lines 155-202): mark the positions at the close, run
    the scan, close what it lists, then execute the pending market orders
    of the symbol at the close. *)
Definition process_candle (e : t) (uuid4 : nat -> string) (symbol : string)
    (open_price high low close volume : Q) : t :=
  let e1 := set_balance_manager e
              (BalanceManager.update_position_prices (balance_manager e)
                 symbol close) in
  let positions_to_close :=
    _check_tp_sl_improved e1 symbol open_price high low close in
  let e2 := close_triggered e1 uuid4 0 symbol high low positions_to_close in
  execute_pending e2 symbol high low close.

(** [cancel_order]: [false] is "Order not found". *)
Definition cancel_order (e : t) (order_id : string) : bool * t :=
  match dict_get order_id (orders e) with
  | None => (false, e)
  | Some order =>
      (true,
       mk (balance_manager e) (dict_del order_id (orders e))
          (order_history e ++ [Order.set_status order CANCELLED]))
  end.
(** [get_order] *)
Definition get_order (e : t) (order_id : string) : option Order.t :=
  dict_get order_id (orders e).

(** [get_open_orders] (lines 249-254). *)
Definition get_open_orders (e : t) (symbol : option string)
  : list Order.t :=
  let orders := dict_values (orders e) in
  match truthy_str symbol with
  | Some s => filter (fun order => String.eqb (Order.symbol order) s) orders
  | None => orders
  end.

(** [get_order_history] (lines 256-261): the last [limit] orders, then the
    symbol filter. *)
Definition get_order_history (e : t) (symbol : option string) (limit : Z)
  : list Order.t :=
  let history :=
    if (limit =? 0)%Z then order_history e
    else slice_from (- limit)%Z (order_history e) in
  match truthy_str symbol with
  | Some s => filter (fun order => String.eqb (Order.symbol order) s) history
  | None => history
  end.
End OrderEngine.

(** ** api/server.py: the look-ahead of the order endpoint *)

Module Server.
Section Simulate.
(** Timestamps as the data frame carries them; the market data provider is
    not part of this development, so the future candles of the symbol and
    its current price are inputs. *)
Variable T : Type.

(** A row of the data frame: timestamp, high, low, close. *)
Definition candle : Type := T * Q * Q * Q.

Record execution_result := mk_result {
  triggered : bool;
  trigger_type : option string;
  trigger_price : option Q;
  trigger_timestamp : option T;
  pnl : Q;
  execution_time : T
}.

(** The body of the loop over the future candles for one candle: the
    updated result when the loop breaks on it. *)
Definition trigger_on (position : Position.t) (now : T) (c : candle)
  : option execution_result :=
  let '(timestamp, high, low, close) := c in
  let lev := inject_Z (Position.leverage position) in
  let tp_branch :=
    match truthy (Position.take_profit_price position) with
    | Some tp =>
        if String.eqb (PositionSide_value (Position.side position)) "LONG"
           && Qle_bool tp high
        then Some (mk_result true (Some "TP") (Some tp) (Some timestamp)
                     ((tp - Position.entry_price position)
                      * Position.quantity position * lev) now)
        else if String.eqb (PositionSide_value (Position.side position))
                           "SHORT"
                && Qle_bool low tp
        then Some (mk_result true (Some "TP") (Some tp) (Some timestamp)
                     ((Position.entry_price position - tp)
                      * Position.quantity position * lev) now)
        else None
    | None => None
    end in
  match tp_branch with
  | Some res => Some res
  | None =>
      match truthy (Position.stop_loss_price position) with
      | Some sl =>
          if String.eqb (PositionSide_value (Position.side position)) "LONG"
             && Qle_bool low sl
          then Some (mk_result true (Some "SL") (Some sl) (Some timestamp)
                       ((sl - Position.entry_price position)
                        * Position.quantity position * lev) now)
          else if String.eqb (PositionSide_value (Position.side position))
                             "SHORT"
                  && Qle_bool sl high
          then Some (mk_result true (Some "SL") (Some sl) (Some timestamp)
                       ((Position.entry_price position - sl)
                        * Position.quantity position * lev) now)
          else None
      | None => None
      end
  end.

(** The loop with its [break]. *)
Fixpoint scan_future (position : Position.t) (now : T)
    (future_data : list candle) : option execution_result :=
  match future_data with
  | [] => None
  | c :: rest =>
      match trigger_on position now c with
      | Some res => Some res
      | None => scan_future position now rest
      end
  end.

(** [_simulate_immediate_execution] (lines 671-772): [position] is the
    result of [positions.get(position_key)], [future_data] the rows after
    the current time, [current_price] what the data provider returns for
    the current time. *)
Definition _simulate_immediate_execution (position : option Position.t)
    (now : T) (future_data : list candle) (current_price : option Q)
  : option execution_result :=
  match position with
  | None => None
  | Some position =>
      match scan_future position now future_data with
      | Some res => Some res
      | None =>
          let lev := inject_Z (Position.leverage position) in
          match truthy current_price with
          | Some cp =>
              if String.eqb (PositionSide_value (Position.side position))
                            "LONG"
              then Some (mk_result false None None None
                           ((cp - Position.entry_price position)
                            * Position.quantity position * lev) now)
              else Some (mk_result false None None None
                           ((Position.entry_price position - cp)
                            * Position.quantity position * lev) now)
          | None => Some (mk_result false None None None 0 now)
          end
      end
  end.
End Simulate.
End Server.

(** ** time/manager.py *)

Module TimeManager.
(** A [datetime] by its fields. *)
Record datetime := mk_datetime {
  year : Z; month : Z; day : Z;
  hour : Z; minute : Z; second : Z; microsecond : Z
}.

(** The time fields of a [datetime] object are in range. *)
Definition valid_time (d : datetime) : Prop :=
  (0 <= hour d < 24 /\ 0 <= minute d < 60 /\ 0 <= second d < 60
   /\ 0 <= microsecond d < 1000000)%Z.

(** [d.replace(minute=m, second=0, microsecond=0)]; [None] is the
    [ValueError] raised for a minute outside 0..59. *)
Definition replace_minute (d : datetime) (m : Z) : option datetime :=
  if ((0 <=? m) && (m <=? 59))%Z
  then Some (mk_datetime (year d) (month d) (day d) (hour d) m 0 0)
  else None.

(** [get_5m_boundary_time] (lines 73-82) on the current time. *)
Definition get_5m_boundary_time (current_time : datetime) : option datetime :=
  let minutes_since_epoch :=
    (minute current_time + hour current_time * 60)%Z in
  let boundary_minute := (minutes_since_epoch / 5 * 5)%Z in
  replace_minute current_time boundary_minute.

(** [should_include_next_candle] *)
Definition should_include_next_candle (current_time : datetime) : bool :=
  (30 <=? second current_time)%Z.
End TimeManager.

(** ** Runs of the engine *)

(** The calls a client of the engine makes: order creation, the market
    execution of an open order (the order endpoint executes the order it has
    just created), a candle, a cancellation. *)
Inductive Op :=
| OpCreate (uuid symbol side : string) (quantity : Q) (order_type : string)
           (price : Q) (take_profit stop_loss : option Q)
           (leverage : option Z)
| OpExecute (order_id : string) (current_price high low : Q)
| OpCandle (uuid4 : nat -> string) (symbol : string)
           (open_price high low close volume : Q)
| OpCancel (order_id : string).

Definition step (e : OrderEngine.t) (op : Op) : OrderEngine.t :=
  match op with
  | OpCreate uuid symbol side quantity order_type price tp sl leverage =>
      snd (OrderEngine.create_order e uuid symbol side quantity order_type
             price tp sl leverage)
  | OpExecute order_id current_price high low =>
      match dict_get order_id (OrderEngine.orders e) with
      | Some order =>
          snd (fst (OrderEngine.execute_market_order e order current_price
                      high low))
      | None => e
      end
  | OpCandle uuid4 symbol o h l c v =>
      OrderEngine.process_candle e uuid4 symbol o h l c v
  | OpCancel order_id => snd (OrderEngine.cancel_order e order_id)
  end.

Definition run (e : OrderEngine.t) (ops : list Op) : OrderEngine.t :=
  fold_left step ops e.

(** The engine as the server builds it. *)
Definition fresh (initial_balance : option Q) : OrderEngine.t :=
  OrderEngine.__init__ (BalanceManager.__init__ initial_balance).

(** The free USDT of an engine (0 when the asset is missing). *)
Definition free_usdt (bm : BalanceManager.t) : Q :=
  match BalanceManager.get_balance bm "USDT" with
  | Some b => Balance.free b
  | None => 0
  end.

(** ** What the claims talk about *)

(** [total == free + locked] on every balance of the ledger. *)
Definition balance_ok (b : Balance.t) : Prop :=
  Balance.total b == Balance.free b + Balance.locked b.

Definition balances_ok (bm : BalanceManager.t) : Prop :=
  forall asset b,
    dict_get asset (BalanceManager.balances bm) = Some b -> balance_ok b.

(** The position book is well formed: no two keys share an object, every
    reference is allocated, every position is stored under the key built
    from its own symbol and side, with a positive quantity. *)
Definition book_wf (ps : dict nat) (h : list Position.t) : Prop :=
  NoDup (dict_values ps)
  /\ forall k r,
       In (k, r) ps ->
       (r < length h)%nat
       /\ 0 < Position.quantity (nth r h Position.default)
       /\ k = BalanceManager.position_key
                (Position.symbol (nth r h Position.default))
                (Position.side (nth r h Position.default)).

Definition book_ok (bm : BalanceManager.t) : Prop :=
  book_wf (BalanceManager.positions bm) (BalanceManager.heap bm).

(** Open orders have passed the quantity check of [create_order]. *)
Definition engine_ok (e : OrderEngine.t) : Prop :=
  book_ok (OrderEngine.balance_manager e)
  /\ balances_ok (OrderEngine.balance_manager e)
  /\ forall o, In o (dict_values (OrderEngine.orders e)) ->
               0 < Order.quantity o.


(** A tier of a slippage table selected for a volume: the entry with the
    highest threshold not above the volume, or, when the volume is below
    every threshold, the entry with the lowest threshold. *)
Definition selected_tier (cfg : list (Z * Q)) (volume : Q) (t : Z) (s : Q)
  : Prop :=
  In (t, s) cfg
  /\ ((inject_Z t <= volume
       /\ forall t' s', In (t', s') cfg -> inject_Z t' <= volume ->
                        (t' <= t)%Z)
      \/ ((forall t' s', In (t', s') cfg -> volume < inject_Z t')
          /\ forall t' s', In (t', s') cfg -> (t <= t')%Z)).

(** Decreasing threshold order, the order of [sorted(..., reverse=True)]. *)
Definition desc (x y : Z * Q) : Prop := (fst y <= fst x)%Z.

(** ** Scenarios used below *)

Definition ADA : string := "ADA-USDT".

(** A buy of 100 ADA with take-profit 1.05 and stop-loss 0.95, created and
    executed at the market price 1.00 on a fresh account of 1000 USDT. *)
Definition long_100 : OrderEngine.t :=
  run (fresh None)
    [ OpCreate "o1" ADA "BUY" 100 "MARKET" 0
               (Some (105 # 100)) (Some (95 # 100)) None;
      OpExecute "o1" 1 1 1 ].

Definition candle_ids (n : nat) : string :=
  match n with O => "c0" | 1%nat => "c1" | _ => "c2" end.

(** The ledger after [execute_order] has opened LONG 100 @ 1.00 at leverage
    10: free 989.93, margin 10. *)
Definition buy_order : Order.t :=
  Order.mk "o1" ADA BUY LONG MARKET 100 0 0 0 PENDING None None 0
           (Some 10%Z).

Definition opened_at_1 : BalanceManager.t :=
  snd (fst (BalanceManager.execute_order (BalanceManager.__init__ None)
              buy_order 1 100)).

(** A sell of the whole LONG position. *)
Definition sell_long_order : Order.t :=
  Order.mk "o2" ADA SELL LONG MARKET 100 0 0 0 PENDING None None 0
           (Some 10%Z).

(** Two market buys of the same symbol: 100 at the market price 1.00, then
    50 at the market price 2.00. *)
Definition two_buys : OrderEngine.t :=
  run (fresh None)
    [ OpCreate "o1" ADA "BUY" 100 "MARKET" 0 None None None;
      OpExecute "o1" 1 1 1;
      OpCreate "o2" ADA "BUY" 50 "MARKET" 0 None None None;
      OpExecute "o2" 2 2 2 ].

(** A buy of symbol "A", then a buy of symbol "A_LONG". *)
Definition two_symbols : OrderEngine.t :=
  run (fresh None)
    [ OpCreate "o1" "A" "BUY" 1 "MARKET" 0 None None None;
      OpExecute "o1" 1 1 1;
      OpCreate "o2" "A_LONG" "BUY" 1 "MARKET" 0 None None None;
      OpExecute "o2" 1 1 1 ].

(** What identifies an order in the history. *)
Definition order_summary (o : Order.t)
  : string * OrderSide * PositionSide * OrderStatus :=
  (Order.id o, Order.side o, Order.position_side o, Order.status o).

(** The order was filled, in full, by [execute_market_order] called with
    the market price [x]: a buy above [x], a sell below [x], by the slippage
    of the order value at [x]. *)
Definition executed_at (x : Q) (o : Order.t) : Prop :=
  Order.status o = FILLED
  /\ Order.order_type o = MARKET
  /\ Order.executed_quantity o = Order.quantity o
  /\ Order.executed_price o
     = match Order.side o with
       | BUY =>
           x + BalanceManager.calculate_slippage (Order.quantity o * x) x
       | SELL =>
           x - BalanceManager.calculate_slippage (Order.quantity o * x) x
       end.

(** The ledger as the engine leaves it: one balance, USDT, nothing
    locked. *)
Definition ledger_ok (bm : BalanceManager.t) : Prop :=
  exists b,
    BalanceManager.balances bm = [("USDT", b)]
    /\ Balance.asset b = "USDT"
    /\ Balance.locked b = 0.

(** Open orders are stored under their id, pending, with a positive
    quantity and a non-zero leverage attribute. *)
Definition orders_ok (e : OrderEngine.t) : Prop :=
  forall k o,
    In (k, o) (OrderEngine.orders e) ->
    Order.id o = k /\ Order.status o = PENDING /\ 0 < Order.quantity o
    /\ exists l, Order.leverage o = Some l /\ l <> 0%Z.

(** Orders in the history are in a terminal status. *)
Definition history_ok (e : OrderEngine.t) : Prop :=
  forall o, In o (OrderEngine.order_history e) ->
            Order.status o = FILLED \/ Order.status o = CANCELLED.

Definition engine_inv (e : OrderEngine.t) : Prop :=
  book_ok (OrderEngine.balance_manager e)
  /\ ledger_ok (OrderEngine.balance_manager e)
  /\ orders_ok e
  /\ history_ok e.

(** An order is pending on a symbol as a market order: what the second loop
    of [process_candle] selects. *)
Definition pending_market (symbol : string) (o : Order.t) : bool :=
  String.eqb (Order.symbol o) symbol
  && OrderType_eqb (Order.order_type o) MARKET.

(** A candle breaches the take-profit, or the stop-loss, of a position. *)
Definition tp_breached (p : Position.t) (high low : Q) (x : Q) : Prop :=
  Position.take_profit_price p = Some x /\ ~ x == 0
  /\ match Position.side p with LONG => x <= high | SHORT => low <= x end.

Definition sl_breached (p : Position.t) (high low : Q) (x : Q) : Prop :=
  Position.stop_loss_price p = Some x /\ ~ x == 0
  /\ match Position.side p with LONG => low <= x | SHORT => x <= high end.

(** A fresh account with one resting limit buy and one pending market
    sell. *)
Definition two_open_orders : OrderEngine.t :=
  run (fresh None)
    [ OpCreate "l1" ADA "BUY" 10 "LIMIT" 1 None None None;
      OpCreate "m1" ADA "SELL" 5 "MARKET" 0 None None None ].

(** The last [n] elements of a list. *)
Definition lastn {A : Type} (n : nat) (l : list A) : list A :=
  skipn (length l - n) l.

(** The orders of a symbol; no symbol, or the empty string, keeps all. *)
Definition of_symbol (symbol : option string) (l : list Order.t)
  : list Order.t :=
  match truthy_str symbol with
  | Some s => filter (fun order => String.eqb (Order.symbol order) s) l
  | None => l
  end.

(** * Proofs *)

(** ** Dictionaries and the object store *)

Section DictFacts.
Context {V : Type}.
Implicit Types (d : dict V) (k : string) (v : V).

Lemma dict_get_set_eq k v d : dict_get k (dict_set k v d) = Some v.
Proof.
  induction d as [|[k' v'] d IH]; simpl.
  - now rewrite String.eqb_refl.
  - destruct (String.eqb k' k) eqn:E; simpl; rewrite E; auto.
Qed.

Lemma dict_get_set_neq k k' v d :
  k <> k' -> dict_get k' (dict_set k v d) = dict_get k' d.
Proof.
  intros Hne. induction d as [|[k0 v0] d IH]; simpl.
  - destruct (String.eqb_spec k k'); congruence.
  - destruct (String.eqb_spec k0 k) as [->|]; simpl.
    + destruct (String.eqb_spec k k'); congruence.
    + now rewrite IH.
Qed.

Lemma dict_get_del_eq k d : dict_get k (dict_del k d) = None.
Proof.
  unfold dict_del. induction d as [|[k' v'] d IH]; simpl; auto.
  destruct (String.eqb k' k) eqn:E; simpl; auto. now rewrite E.
Qed.

Lemma dict_get_del_neq k k' d :
  k <> k' -> dict_get k' (dict_del k d) = dict_get k' d.
Proof.
  intros Hne. unfold dict_del.
  induction d as [|[k0 v0] d IH]; simpl; auto.
  destruct (String.eqb_spec k0 k) as [->|]; simpl.
  - destruct (String.eqb_spec k k'); congruence.
  - now rewrite IH.
Qed.

Lemma dict_get_In k v d : dict_get k d = Some v -> In (k, v) d.
Proof.
  induction d as [|[k' v'] d IH]; simpl; [discriminate|].
  destruct (String.eqb_spec k' k) as [->|]; intros H.
  - left. congruence.
  - right. auto.
Qed.

Lemma dict_set_absent k v d :
  dict_get k d = None -> dict_set k v d = (d ++ [(k, v)])%list.
Proof.
  induction d as [|[k' v'] d IH]; simpl; auto.
  destruct (String.eqb k' k); [discriminate|].
  intros H. now rewrite IH.
Qed.

Lemma In_dict_del k k' v d :
  In (k', v) (dict_del k d) <-> In (k', v) d /\ k' <> k.
Proof.
  unfold dict_del. rewrite filter_In. simpl.
  destruct (String.eqb_spec k' k); simpl; intuition congruence.
Qed.

Lemma dict_values_del_incl k d x :
  In x (dict_values (dict_del k d)) -> In x (dict_values d).
Proof.
  unfold dict_values. rewrite !in_map_iff.
  intros [[k' v] [<- H]]. apply In_dict_del in H. exists (k', v). tauto.
Qed.

Lemma NoDup_values_del k d :
  NoDup (dict_values d) -> NoDup (dict_values (dict_del k d)).
Proof.
  unfold dict_values, dict_del.
  induction d as [|[k' v'] d IH]; simpl; auto.
  intros H. inversion H as [|? ? Hn Hd]; subst.
  destruct (negb (String.eqb k' k)); simpl; auto.
  constructor; auto.
  intros Hin. apply Hn. apply (dict_values_del_incl k). exact Hin.
Qed.

Lemma NoDup_values_unique d k k' v :
  NoDup (dict_values d) -> In (k, v) d -> In (k', v) d -> k = k'.
Proof.
  unfold dict_values. induction d as [|[k0 v0] d IH]; simpl; [tauto|].
  intros H. inversion H as [|? ? Hn Hd]; subst.
  intros [E1|H1] [E2|H2].
  - congruence.
  - inversion E1; subst. exfalso. apply Hn.
    apply in_map_iff. now exists (k', v).
  - inversion E2; subst. exfalso. apply Hn.
    apply in_map_iff. now exists (k, v).
  - auto.
Qed.
End DictFacts.

Lemma store_set_length {A} (r : nat) (x : A) l :
  length (store_set r x l) = length l.
Proof.
  revert r. induction l as [|h t IH]; intros [|r]; simpl; auto.
Qed.

Lemma store_set_beyond {A} (r : nat) (x : A) l :
  (length l <= r)%nat -> store_set r x l = l.
Proof.
  revert r. induction l as [|h t IH]; intros [|r] H; simpl in *; auto;
    try lia.
  f_equal. apply IH. lia.
Qed.

Lemma nth_store_set_eq {A} (r : nat) (x d : A) l :
  (r < length l)%nat -> nth r (store_set r x l) d = x.
Proof.
  revert r. induction l as [|h t IH]; intros [|r]; simpl; try lia; auto.
  intros H. apply IH. lia.
Qed.

Lemma nth_store_set_neq {A} (r r' : nat) (x d : A) l :
  r <> r' -> nth r' (store_set r x l) d = nth r' l d.
Proof.
  revert r r'. induction l as [|h t IH]; intros [|r] [|r'] Hne; simpl;
    auto; try congruence.
Qed.

(** ** Pricing policy *)

Lemma Qle_bool_false x y : Qle_bool x y = false -> y < x.
Proof.
  intros H. apply Qnot_le_lt. intros Hle.
  apply Qle_bool_iff in Hle. congruence.
Qed.

Lemma Qltb_true x y : Qltb x y = true <-> x < y.
Proof.
  unfold Qltb. rewrite negb_true_iff. split.
  - apply Qle_bool_false.
  - intros H. destruct (Qle_bool y x) eqn:E; auto.
    apply Qle_bool_iff in E. exfalso. apply (Qlt_not_le x y); auto.
Qed.

Lemma Qltb_false x y : Qltb x y = false <-> y <= x.
Proof.
  unfold Qltb. rewrite negb_false_iff. apply Qle_bool_iff.
Qed.

Module SettingsFacts.
Import Settings.

Lemma In_insert_desc x y l : In y (insert_desc x l) <-> y = x \/ In y l.
Proof.
  induction l as [|z l IH]; simpl.
  - intuition.
  - destruct (fst z <=? fst x)%Z; simpl; rewrite ?IH; intuition.
Qed.

Lemma insert_desc_sorted x l :
  StronglySorted desc l -> StronglySorted desc (insert_desc x l).
Proof.
  induction 1 as [|z l Hs IH Hall]; simpl.
  - repeat constructor.
  - destruct (fst z <=? fst x)%Z eqn:E.
    + apply Z.leb_le in E. constructor.
      * constructor; auto.
      * constructor; [exact E|].
        eapply Forall_impl; [|exact Hall].
        unfold desc. intros; lia.
    + apply Z.leb_gt in E. constructor; auto.
      apply Forall_forall. intros y Hy.
      apply In_insert_desc in Hy. destruct Hy as [->|Hy].
      * unfold desc. lia.
      * rewrite Forall_forall in Hall. auto.
Qed.

Lemma In_sorted_reverse y l : In y (sorted_reverse l) <-> In y l.
Proof.
  unfold sorted_reverse. induction l as [|x l IH]; simpl; [tauto|].
  rewrite In_insert_desc, IH. intuition.
Qed.

Lemma sorted_reverse_sorted l : StronglySorted desc (sorted_reverse l).
Proof.
  unfold sorted_reverse. induction l; simpl.
  - constructor.
  - now apply insert_desc_sorted.
Qed.

Lemma first_reached_some v l s :
  StronglySorted desc l -> first_reached v l = Some s ->
  exists t, In (t, s) l /\ inject_Z t <= v
            /\ forall t' s', In (t', s') l -> inject_Z t' <= v -> (t' <= t)%Z.
Proof.
  induction 1 as [|[t0 s0] l Hs IH Hall]; simpl; [discriminate|].
  destruct (Qle_bool (inject_Z t0) v) eqn:E.
  - intros [= <-]. exists t0. apply Qle_bool_iff in E.
    repeat split; auto.
    intros t' s' [[= <- <-]|Hin] _; [lia|].
    rewrite Forall_forall in Hall. apply (Hall _ Hin).
  - intros Hf. destruct (IH Hf) as (t & Hin & Hle & Hmax).
    exists t. repeat split; auto.
    intros t' s' [[= <- <-]|Hin'] Hv; eauto.
    apply Qle_bool_iff in Hv. congruence.
Qed.

Lemma first_reached_none v l :
  first_reached v l = None ->
  forall t s, In (t, s) l -> v < inject_Z t.
Proof.
  induction l as [|[t0 s0] l IH]; simpl; [tauto|].
  destruct (Qle_bool (inject_Z t0) v) eqn:E; [discriminate|].
  intros Hf t s [[= <- <-]|Hin]; eauto.
  now apply Qle_bool_false.
Qed.

Lemma config_get_In k cfg s : config_get k cfg = Some s -> In (k, s) cfg.
Proof.
  induction cfg as [|[k' v] cfg IH]; simpl; [discriminate|].
  destruct (Z.eqb_spec k' k) as [->|]; intros H.
  - left. congruence.
  - right. auto.
Qed.

(** [get_slippage] over any table: the tier of the highest threshold that
    is reached, else the entry of key 0. *)
Lemma get_slippage_in_spec cfg v s :
  get_slippage_in cfg v = Some s ->
  (exists t, In (t, s) cfg /\ inject_Z t <= v
             /\ forall t' s', In (t', s') cfg -> inject_Z t' <= v ->
                              (t' <= t)%Z)
  \/ ((forall t' s', In (t', s') cfg -> v < inject_Z t')
      /\ In (0%Z, s) cfg).
Proof.
  unfold get_slippage_in.
  destruct (first_reached v (sorted_reverse cfg)) as [s0|] eqn:E.
  - intros [= <-]. left.
    destruct (first_reached_some _ _ _ (sorted_reverse_sorted cfg) E)
      as (t & Hin & Hle & Hmax).
    exists t. rewrite In_sorted_reverse in Hin. repeat split; auto.
    intros t' s' Hin'. apply (Hmax t' s'). now apply In_sorted_reverse.
  - intros Hc. right. split.
    + intros t' s' Hin. apply (first_reached_none _ _ E t' s').
      now apply In_sorted_reverse.
    + now apply config_get_In.
Qed.

(** The configured table has key 0: [get_slippage] never falls through. *)
Lemma get_slippage_in_config v :
  exists s, get_slippage_in SLIPPAGE_CONFIG v = Some s.
Proof.
  unfold get_slippage_in.
  destruct (first_reached v (sorted_reverse SLIPPAGE_CONFIG)).
  - eauto.
  - eexists. reflexivity.
Qed.

Lemma config_thresholds_nonneg t s :
  In (t, s) SLIPPAGE_CONFIG -> (0 <= t)%Z.
Proof.
  unfold SLIPPAGE_CONFIG. simpl.
  intros [H|[H|[H|[H|[]]]]]; inversion H; lia.
Qed.

Lemma get_slippage_selected v :
  exists t, selected_tier SLIPPAGE_CONFIG v t (get_slippage v).
Proof.
  unfold get_slippage.
  destruct (get_slippage_in_config v) as [s Hs]. rewrite Hs.
  destruct (get_slippage_in_spec _ _ _ Hs)
    as [(t & Hin & Hle & Hmax)|[Hlow H0]].
  - exists t. split; auto.
  - exists 0%Z. split; auto. right. split; auto.
    intros t' s' Hin. apply (config_thresholds_nonneg t' s' Hin).
Qed.
End SettingsFacts.

(** C8. [calculate_slippage(order_value, market_price)] is the market price
    times the percentage of the tier selected for the order value: the tier
    of the highest configured threshold that is [<= order_value], or the
    tier of the lowest threshold when the value is below all of them.  An
    order value of 5000 USDT selects the tier of threshold 1000 (0.1%), and
    not the tier of threshold 10000. *)
Theorem slippage_selects_highest_reached_tier :
  (forall order_value market_price : Q,
      exists t s,
        selected_tier Settings.SLIPPAGE_CONFIG order_value t s
        /\ BalanceManager.calculate_slippage order_value market_price
           = market_price * s)
  /\ (forall market_price : Q,
         selected_tier Settings.SLIPPAGE_CONFIG 5000 1000%Z (1 # 1000)
         /\ BalanceManager.calculate_slippage 5000 market_price
            = market_price * (1 # 1000)
         /\ ~ selected_tier Settings.SLIPPAGE_CONFIG 5000 10000%Z (2 # 1000)).
Proof.
  split.
  - intros ov mp.
    destruct (SettingsFacts.get_slippage_selected ov) as [t Ht].
    exists t, (Settings.get_slippage ov). split; auto.
  - intros mp. split; [|split].
    + split; [simpl; tauto|]. left. split; [unfold Qle; simpl; lia|].
      simpl. intros t' s' [H|[H|[H|[H|[]]]]] Hle; inversion H; subst;
        try lia.
      exfalso. revert Hle. unfold Qle; simpl; lia.
    + reflexivity.
    + intros [_ [[Hle _]|[Hall _]]].
      * revert Hle. unfold Qle; simpl; lia.
      * specialize (Hall 0%Z (1 # 10000)). simpl in Hall.
        assert (H : 5000 < inject_Z 0) by (apply Hall; tauto).
        revert H. unfold Qlt; simpl; lia.
Qed.

(** ** The ledger *)

Module BalanceFacts.
Import BalanceManager.

(** [order.side.value] is "BUY" or "SELL", [order.position_side.value] is
    "LONG" or "SHORT": the comparison of line 134 never holds. *)
Lemma side_value_neq s p :
  String.eqb (OrderSide_value s) (PositionSide_value p) = false.
Proof. destruct s, p; reflexivity. Qed.

Lemma debit_ok b x : balance_ok (Balance.debit b x).
Proof. unfold balance_ok. simpl. reflexivity. Qed.

Lemma credit_ok b x : balance_ok (Balance.credit b x).
Proof. unfold balance_ok. simpl. reflexivity. Qed.

Lemma init_balances_ok ib : balances_ok (__init__ ib).
Proof.
  unfold balances_ok, __init__. cbn [balances dict_get]. intros asset b.
  destruct (String.eqb "USDT" asset); [|discriminate].
  intros [= <-]. unfold balance_ok.
  cbn [Balance.total Balance.free Balance.locked]. ring.
Qed.

(** The balances a call of [execute_order] leaves behind. *)
Lemma execute_order_balances bm order ep eq :
  let bm' := snd (fst (execute_order bm order ep eq)) in
  balances bm' = balances bm
  \/ exists usdt x,
       dict_get "USDT" (balances bm) = Some usdt
       /\ (balances bm'
             = dict_set "USDT" (Balance.debit usdt x) (balances bm)
           \/ exists m,
                balances bm'
                = dict_set "USDT" (Balance.credit (Balance.debit usdt x) m)
                    (dict_set "USDT" (Balance.debit usdt x) (balances bm))).
Proof.
  unfold execute_order. rewrite side_value_neq.
  destruct (required_margin_of order (eq * ep)) as [rm|]; simpl; auto.
  destruct (dict_get "USDT" (balances bm)) as [usdt|] eqn:Hu; simpl; auto.
  right. exists usdt, (rm + calculate_commission (eq * ep)). split; auto.
  destruct (dict_get _ (positions bm)) as [r|]; simpl; auto.
  match goal with |- context [Qle_bool ?a ?b] =>
    destruct (Qle_bool a b) end; simpl; eauto.
Qed.

Lemma dict_set_ok (d : dict Balance.t) k b :
  (forall a x, dict_get a d = Some x -> balance_ok x) ->
  balance_ok b ->
  forall a x, dict_get a (dict_set k b d) = Some x -> balance_ok x.
Proof.
  intros Hd Hb a x. destruct (String.eqb_spec k a) as [->|Hne].
  - rewrite dict_get_set_eq. now intros [= <-].
  - rewrite dict_get_set_neq by auto. apply Hd.
Qed.

Lemma execute_order_balances_ok bm order ep eq :
  balances_ok bm ->
  balances_ok (snd (fst (execute_order bm order ep eq))).
Proof.
  intros Hok. unfold balances_ok.
  destruct (execute_order_balances bm order ep eq)
    as [->|(usdt & x & _ & [->|[m ->]])]; auto.
  - apply dict_set_ok; auto using debit_ok.
  - apply dict_set_ok; auto using credit_ok.
    apply dict_set_ok; auto using debit_ok.
Qed.

(** After a successful call the USDT balance has been rewritten, whatever
    it was before. *)
Lemma execute_order_usdt_ok bm order ep eq b :
  fst (fst (execute_order bm order ep eq)) = true ->
  get_balance (snd (fst (execute_order bm order ep eq))) "USDT" = Some b ->
  balance_ok b.
Proof.
  unfold get_balance, execute_order. rewrite side_value_neq.
  destruct (required_margin_of order (eq * ep)) as [rm|];
    simpl; [|discriminate].
  destruct (dict_get "USDT" (balances bm)) as [usdt|] eqn:Hu;
    simpl; [|discriminate].
  destruct (dict_get _ (positions bm)) as [r|]; simpl.
  - match goal with |- context [Qle_bool ?a ?b] =>
      destruct (Qle_bool a b) end; simpl; intros _;
      rewrite dict_get_set_eq; intros [= <-];
      auto using debit_ok, credit_ok.
  - intros _. rewrite dict_get_set_eq. intros [= <-]. apply debit_ok.
Qed.

(** The branches of [execute_order] on a key present in the book. *)
Lemma execute_order_closes bm order ep eq usdt rm r :
  dict_get "USDT" (balances bm) = Some usdt ->
  required_margin_of order (eq * ep) = Some rm ->
  dict_get (position_key (Order.symbol order) (Order.position_side order))
           (positions bm) = Some r ->
  Qle_bool (Position.quantity (deref bm r) - eq) 0 = true ->
  let c := calculate_commission (eq * ep) in
  let usdt1 := Balance.debit usdt (rm + c) in
  let p1 := Position.set_quantity (deref bm r)
              (Position.quantity (deref bm r) - eq) in
  let pnl := realized_pnl_of order (deref bm r) ep eq in
  let p2 := Position.set_realized_pnl p1 (Position.realized_pnl p1 + pnl) in
  execute_order bm order ep eq
  = (true,
     mk (initial_balance bm)
        (dict_set "USDT" (Balance.credit usdt1 (Position.margin (deref bm r)))
           (dict_set "USDT" usdt1 (balances bm)))
        (dict_del (position_key (Order.symbol order)
                     (Order.position_side order)) (positions bm))
        (store_set r p2 (store_set r p1 (heap bm)))
        (total_pnl bm + pnl),
     Order.fill order ep eq c).
Proof.
  intros Hu Hm Hk Hle. unfold execute_order.
  rewrite side_value_neq, Hm, Hu. cbv zeta.
  cbn [positions set_balances]. rewrite Hk.
  unfold deref in *. cbn [heap set_balances Position.quantity
                          Position.set_quantity].
  rewrite Hle. reflexivity.
Qed.

Lemma execute_order_reduces bm order ep eq usdt rm r :
  dict_get "USDT" (balances bm) = Some usdt ->
  required_margin_of order (eq * ep) = Some rm ->
  dict_get (position_key (Order.symbol order) (Order.position_side order))
           (positions bm) = Some r ->
  Qle_bool (Position.quantity (deref bm r) - eq) 0 = false ->
  let c := calculate_commission (eq * ep) in
  execute_order bm order ep eq
  = (true,
     mk (initial_balance bm)
        (dict_set "USDT" (Balance.debit usdt (rm + c)) (balances bm))
        (positions bm)
        (store_set r (Position.set_quantity (deref bm r)
                        (Position.quantity (deref bm r) - eq)) (heap bm))
        (total_pnl bm),
     Order.fill order ep eq c).
Proof.
  intros Hu Hm Hk Hle. unfold execute_order.
  rewrite side_value_neq, Hm, Hu. cbv zeta.
  cbn [positions set_balances]. rewrite Hk.
  unfold deref in *. cbn [heap set_balances Position.quantity
                          Position.set_quantity].
  rewrite Hle. reflexivity.
Qed.

(** The branch of [execute_order] on a key absent from the book. *)
Lemma execute_order_opens bm order ep eq usdt rm :
  dict_get "USDT" (balances bm) = Some usdt ->
  required_margin_of order (eq * ep) = Some rm ->
  dict_get (position_key (Order.symbol order) (Order.position_side order))
           (positions bm) = None ->
  let c := calculate_commission (eq * ep) in
  execute_order bm order ep eq
  = (true,
     mk (initial_balance bm)
        (dict_set "USDT" (Balance.debit usdt (rm + c)) (balances bm))
        (dict_set (position_key (Order.symbol order)
                     (Order.position_side order))
                  (length (heap bm)) (positions bm))
        (heap bm ++ [Position.mk (Order.symbol order)
                       (Order.position_side order) eq ep ep 0 0
                       Settings.DEFAULT_LEVERAGE rm
                       (Order.take_profit_price order)
                       (Order.stop_loss_price order)])
        (total_pnl bm),
     Order.fill order ep eq c).
Proof.
  intros Hu Hm Hk. unfold execute_order.
  rewrite side_value_neq, Hm, Hu. cbv zeta.
  cbn [positions set_balances]. rewrite Hk. reflexivity.
Qed.

(** [execute_order] fails only before it has touched anything. *)
Lemma execute_order_fails bm order ep eq :
  fst (fst (execute_order bm order ep eq)) = false ->
  execute_order bm order ep eq = (false, bm, order).
Proof.
  unfold execute_order. rewrite side_value_neq.
  destruct (required_margin_of order (eq * ep)); [|reflexivity].
  destruct (dict_get "USDT" (balances bm)); [|reflexivity].
  cbv zeta. destruct (dict_get _ _); [|discriminate].
  match goal with |- context [Qle_bool ?a ?b] =>
    destruct (Qle_bool a b) end; discriminate.
Qed.
End BalanceFacts.

(** ** The position book *)

Module BookFacts.
Import BalanceManager.

Lemma store_set_twice {A} (r : nat) (x y : A) l :
  store_set r y (store_set r x l) = store_set r y l.
Proof.
  revert r. induction l as [|h t IH]; intros [|r]; simpl; auto.
  now rewrite IH.
Qed.

(** Rewriting the object behind [r] with one of the same symbol and side
    and a positive quantity. *)
Lemma book_wf_assign ps h r p :
  book_wf ps h ->
  Position.symbol p = Position.symbol (nth r h Position.default) ->
  Position.side p = Position.side (nth r h Position.default) ->
  0 < Position.quantity p ->
  book_wf ps (store_set r p h).
Proof.
  unfold book_wf. intros [Hnd Hall] Hs Hd Hq.
  split; auto. intros k r' Hin.
  destruct (Hall k r' Hin) as (Hlt & Hpos & Hk).
  rewrite store_set_length. split; auto.
  destruct (Nat.eq_dec r r') as [->|Hne].
  - rewrite nth_store_set_eq by auto. rewrite Hs, Hd. auto.
  - rewrite nth_store_set_neq by auto. auto.
Qed.

(** Removing a key and rewriting the object it named. *)
Lemma book_wf_close ps h key r p :
  book_wf ps h -> In (key, r) ps ->
  book_wf (dict_del key ps) (store_set r p h).
Proof.
  unfold book_wf. intros [Hnd Hall] Hin.
  split; [now apply NoDup_values_del|].
  intros k r' Hin'. apply In_dict_del in Hin'. destruct Hin' as [Hin' Hne].
  destruct (Hall k r' Hin') as (Hlt & Hpos & Hk).
  rewrite store_set_length. split; auto.
  assert (r <> r') as Hr.
  { intros ->. apply Hne. eapply NoDup_values_unique; eauto. }
  rewrite nth_store_set_neq by auto. auto.
Qed.

(** Allocating an object under a key that was absent. *)
Lemma book_wf_open ps h key p :
  book_wf ps h -> dict_get key ps = None ->
  0 < Position.quantity p ->
  key = position_key (Position.symbol p) (Position.side p) ->
  book_wf (dict_set key (length h) ps) (h ++ [p]).
Proof.
  unfold book_wf. intros [Hnd Hall] Habs Hq Hk.
  rewrite (dict_set_absent _ _ _ Habs). unfold dict_values in *.
  rewrite map_app. simpl. split.
  - apply NoDup_app; [exact Hnd | repeat constructor; simpl; tauto |].
    intros x Hx [<-|[]]. apply in_map_iff in Hx.
    destruct Hx as [[k r] [Hr Hin]]. simpl in Hr. subst r.
    destruct (Hall _ _ Hin) as (Hlt & _). lia.
  - intros k r Hin. rewrite length_app. simpl.
    apply in_app_or in Hin. destruct Hin as [Hin|[[= <- <-]|[]]].
    + destruct (Hall k r Hin) as (Hlt & Hpos & Hk').
      rewrite app_nth1 by auto. split; [lia|auto].
    + rewrite nth_middle. split; [lia|auto].
Qed.

(** [execute_order] keeps the book well formed when the executed quantity
    is positive. *)
Lemma execute_order_book_ok bm order ep eq :
  book_ok bm -> 0 < eq ->
  book_ok (snd (fst (execute_order bm order ep eq))).
Proof.
  intros Hok Hq. unfold execute_order.
  rewrite BalanceFacts.side_value_neq.
  destruct (required_margin_of order (eq * ep)) as [rm|]; simpl; auto.
  destruct (dict_get "USDT" (balances bm)) as [usdt|] eqn:Hu; simpl; auto.
  destruct (dict_get _ (positions bm)) as [r|] eqn:Hk; simpl.
  - apply dict_get_In in Hk.
    match goal with |- context [Qle_bool ?a ?b] =>
      destruct (Qle_bool a b) eqn:Hle end; unfold book_ok; simpl.
    + rewrite store_set_twice. now apply (book_wf_close _ _ _ r).
    + apply Qle_bool_false in Hle. apply book_wf_assign; auto.
  - unfold book_ok. simpl. apply book_wf_open; auto.
Qed.
End BookFacts.

(** ** The engine *)

Module EngineFacts.
Import OrderEngine.

Lemma fold_left_preserves {A B} (P : A -> Prop) (f : A -> B -> A) l :
  (forall a b, In b l -> P a -> P (f a b)) ->
  forall a, P a -> P (fold_left f l a).
Proof.
  induction l as [|b l IH]; simpl; intros Hf a Ha; [exact Ha|].
  apply IH; [intros; apply Hf; auto | apply Hf; auto].
Qed.

Lemma In_values_set {V} (k : string) (v x : V) d :
  In x (dict_values (dict_set k v d)) -> x = v \/ In x (dict_values d).
Proof.
  unfold dict_values. induction d as [|[k' v'] d IH]; simpl.
  - intuition.
  - destruct (String.eqb k' k); simpl; intuition.
Qed.

Lemma mark_fields symbol cp p :
  Position.symbol (BalanceManager.mark symbol cp p) = Position.symbol p
  /\ Position.side (BalanceManager.mark symbol cp p) = Position.side p
  /\ Position.quantity (BalanceManager.mark symbol cp p)
     = Position.quantity p.
Proof.
  unfold BalanceManager.mark.
  destruct (String.eqb _ symbol); auto.
  destruct (String.eqb _ "LONG"); simpl; auto.
Qed.

(** [update_position_prices] touches neither the balances nor the keys. *)
Lemma update_position_prices_ok bm symbol cp :
  book_ok bm /\ balances_ok bm ->
  book_ok (BalanceManager.update_position_prices bm symbol cp)
  /\ balances_ok (BalanceManager.update_position_prices bm symbol cp).
Proof.
  unfold BalanceManager.update_position_prices.
  apply (fold_left_preserves (fun b => book_ok b /\ balances_ok b)).
  intros a [k r] _ [Hb Hbal]. simpl. split; [|exact Hbal].
  destruct (mark_fields symbol cp (BalanceManager.deref a r))
    as (Hs & Hd & Hq).
  unfold book_ok, BalanceManager.assign. simpl.
  destruct (Nat.lt_ge_cases r (length (BalanceManager.heap a))) as [Hlt|Hge].
  - destruct (in_dec Nat.eq_dec r (dict_values (BalanceManager.positions a)))
      as [Hin|Hnin].
    + apply BookFacts.book_wf_assign; auto.
      rewrite Hq. unfold dict_values in Hin. apply in_map_iff in Hin.
      destruct Hin as [[k' r'] [Hr Hin]]. simpl in Hr. subst r'.
      destruct Hb as [_ Hall]. now destruct (Hall _ _ Hin) as (_ & Hpos & _).
    + destruct Hb as [Hnd Hall]. split; auto. intros k' r' Hin.
      destruct (Hall _ _ Hin) as (Hlt' & Hpos & Hk).
      rewrite store_set_length. split; auto.
      rewrite nth_store_set_neq; auto.
      intros ->. apply Hnin. unfold dict_values. apply in_map_iff.
      now exists (k', r').
  - now rewrite store_set_beyond.
Qed.

(** A rejected request leaves the engine as it was. *)
Lemma create_order_rejected e uuid symbol side quantity order_type price
    tp sl leverage reason e' :
  create_order e uuid symbol side quantity order_type price tp sl leverage
  = (inl reason, e') -> e' = e.
Proof.
  unfold create_order.
  destruct (negb (str_in side _)); [now intros [= _ <-]|].
  destruct (negb (str_in order_type _)); [now intros [= _ <-]|].
  destruct (Qle_bool quantity 0); [now intros [= _ <-]|].
  destruct (OrderSide_of side); [|now intros [= _ <-]].
  destruct (OrderType_of order_type); [|now intros [= _ <-]].
  destruct (BalanceManager.can_place_order _ _ _ _ _ _);
    [now intros [= _ <-]|discriminate].
Qed.

(** An accepted request: the order as built, stored under its id. *)
Lemma create_order_created e uuid symbol side quantity order_type price
    tp sl leverage order e' :
  create_order e uuid symbol side quantity order_type price tp sl leverage
  = (inr order, e') ->
  e' = mk (balance_manager e) (dict_set uuid order (orders e))
          (order_history e)
  /\ 0 < quantity
  /\ BalanceManager.can_place_order (balance_manager e) symbol side quantity
       (if String.eqb order_type "MARKET" then 0 else price)
       (Some (int_or leverage Settings.DEFAULT_LEVERAGE)) = None
  /\ exists oside otype,
       OrderSide_of side = Some oside
       /\ OrderType_of order_type = Some otype
       /\ order = Order.mk uuid symbol oside
                    (if String.eqb side "BUY" then LONG else SHORT) otype
                    quantity price 0 0 PENDING tp sl 0
                    (Some (int_or leverage Settings.DEFAULT_LEVERAGE)).
Proof.
  unfold create_order.
  destruct (negb (str_in side _)); [discriminate|].
  destruct (negb (str_in order_type _)); [discriminate|].
  destruct (Qle_bool quantity 0) eqn:Hq; [discriminate|].
  destruct (OrderSide_of side) as [oside|]; [|discriminate].
  destruct (OrderType_of order_type) as [otype|]; [|discriminate].
  destruct (BalanceManager.can_place_order _ _ _ _ _ _) eqn:Hc;
    [discriminate|].
  intros [= <- <-]. repeat split; auto.
  - now apply Qle_bool_false.
  - exists oside, otype. auto.
Qed.

Lemma create_order_ok e uuid symbol side quantity order_type price
    tp sl leverage :
  engine_ok e ->
  engine_ok (snd (create_order e uuid symbol side quantity order_type price
                    tp sl leverage)).
Proof.
  intros He.
  destruct (create_order e uuid symbol side quantity order_type price
              tp sl leverage) as [[reason|order] e'] eqn:Hc; simpl.
  - now rewrite (create_order_rejected _ _ _ _ _ _ _ _ _ _ _ _ Hc).
  - destruct (create_order_created _ _ _ _ _ _ _ _ _ _ _ _ Hc)
      as (-> & Hq & _ & oside & otype & _ & _ & ->).
    destruct He as (Hb & Hbal & Ho). split; [|split]; auto.
    simpl. intros o Hin. apply In_values_set in Hin.
    destruct Hin as [->|Hin]; auto.
Qed.

Lemma execute_market_order_ok e order cp high low :
  engine_ok e -> 0 < Order.quantity order ->
  engine_ok (snd (fst (execute_market_order e order cp high low))).
Proof.
  intros (Hb & Hbal & Ho) Hq. unfold execute_market_order.
  pose proof (BookFacts.execute_order_book_ok (balance_manager e) order
                (execution_price_of order cp) (Order.quantity order) Hb Hq)
    as Hb'.
  pose proof (BalanceFacts.execute_order_balances_ok (balance_manager e)
                order (execution_price_of order cp) (Order.quantity order)
                Hbal) as Hbal'.
  destruct (BalanceManager.execute_order _ _ _ _) as [[ok bm'] o'].
  simpl in Hb', Hbal'.
  destruct ok; simpl; (split; [|split]); auto.
  intros o Hin. apply Ho.
  destruct (dict_mem _ _); auto.
  now apply dict_values_del_incl in Hin.
Qed.

Lemma cancel_order_ok e order_id :
  engine_ok e -> engine_ok (snd (cancel_order e order_id)).
Proof.
  intros (Hb & Hbal & Ho). unfold cancel_order.
  destruct (dict_get order_id (orders e)); simpl; (split; [|split]); auto.
  intros o Hin. apply Ho. now apply dict_values_del_incl in Hin.
Qed.

Lemma close_one_ok e uuid symbol high low trigger :
  engine_ok e -> engine_ok (close_one e uuid symbol high low trigger).
Proof.
  intros He. destruct trigger as [[r tt] x]. unfold close_one.
  match goal with |- context [create_order ?a ?b ?c ?d ?q ?f ?g ?h ?i ?j] =>
    pose proof (create_order_ok a b c d q f g h i j He) as He1;
    destruct (create_order a b c d q f g h i j) as [[reason|order] e1] eqn:Hc
  end; simpl in He1; auto.
  apply execute_market_order_ok; auto.
  destruct (create_order_created _ _ _ _ _ _ _ _ _ _ _ _ Hc)
    as (_ & Hq & _ & oside & otype & _ & _ & ->). exact Hq.
Qed.

Lemma close_triggered_ok l e uuid4 n symbol high low :
  engine_ok e -> engine_ok (close_triggered e uuid4 n symbol high low l).
Proof.
  revert e n. induction l as [|t l IH]; simpl; intros e n He; auto.
  apply IH. now apply close_one_ok.
Qed.

Lemma execute_pending_ok e symbol high low close :
  engine_ok e -> engine_ok (execute_pending e symbol high low close).
Proof.
  intros He. unfold execute_pending.
  apply (fold_left_preserves engine_ok); auto.
  intros a o Hin Ha. apply execute_market_order_ok; auto.
  apply filter_In in Hin. destruct He as (_ & _ & Ho). apply Ho. tauto.
Qed.

Lemma process_candle_ok e uuid4 symbol o h l c v :
  engine_ok e -> engine_ok (process_candle e uuid4 symbol o h l c v).
Proof.
  intros (Hb & Hbal & Ho). unfold process_candle.
  apply execute_pending_ok, close_triggered_ok.
  destruct (update_position_prices_ok (balance_manager e) symbol c
              (conj Hb Hbal)).
  split; [|split]; auto.
Qed.

Lemma step_ok e op : engine_ok e -> engine_ok (step e op).
Proof.
  intros He. destruct op; simpl.
  - now apply create_order_ok.
  - destruct (dict_get order_id (orders e)) as [order|] eqn:Hg; auto.
    apply execute_market_order_ok; auto.
    destruct He as (_ & _ & Ho). apply Ho.
    apply dict_get_In in Hg. unfold dict_values.
    apply in_map_iff. now exists (order_id, order).
  - now apply process_candle_ok.
  - now apply cancel_order_ok.
Qed.

Lemma fresh_ok ib : engine_ok (fresh ib).
Proof.
  unfold fresh, __init__, engine_ok. simpl. split; [|split].
  - split; [constructor | simpl; tauto].
  - apply BalanceFacts.init_balances_ok.
  - tauto.
Qed.

(** Every state the engine reaches from a fresh account is well formed. *)
Lemma run_ok ib ops : engine_ok (run (fresh ib) ops).
Proof.
  unfold run. apply (fold_left_preserves engine_ok).
  - intros a b _. apply step_ok.
  - apply fresh_ok.
Qed.
End EngineFacts.

(** ** The claims *)

(** C5. After every mutation of a Balance by the ledger the balance
    satisfies [total == free + locked]: after [__init__]; after
    [execute_order] (the debit of a fill, and the release of the margin on a
    full close), both as an invariant of all balances and for the rewritten
    USDT balance whatever its previous contents; hence in every state the
    engine reaches from a fresh account. *)
Theorem total_is_free_plus_locked :
  (forall ib, balances_ok (BalanceManager.__init__ ib))
  /\ (forall bm order ep eq,
         balances_ok bm ->
         balances_ok (snd (fst (BalanceManager.execute_order bm order ep eq))))
  /\ (forall bm order ep eq b,
         fst (fst (BalanceManager.execute_order bm order ep eq)) = true ->
         BalanceManager.get_balance
           (snd (fst (BalanceManager.execute_order bm order ep eq))) "USDT"
         = Some b ->
         Balance.total b == Balance.free b + Balance.locked b)
  /\ (forall ib ops,
         balances_ok (OrderEngine.balance_manager (run (fresh ib) ops))).
Proof.
  split; [|split; [|split]].
  - apply BalanceFacts.init_balances_ok.
  - apply BalanceFacts.execute_order_balances_ok.
  - apply BalanceFacts.execute_order_usdt_ok.
  - intros ib ops. apply (EngineFacts.run_ok ib ops).
Qed.

Lemma total_is_free_plus_locked_witness :
  exists b,
    BalanceManager.get_balance opened_at_1 "USDT" = Some b
    /\ Balance.total b == Balance.free b + Balance.locked b
    /\ Balance.free b == 98993 # 100.
Proof.
  destruct total_is_free_plus_locked as (_ & _ & H & _).
  eexists. split; [reflexivity|]. split.
  - apply (H (BalanceManager.__init__ None) buy_order 1 100); reflexivity.
  - vm_compute. reflexivity.
Defined.

(** C9. A create request that fails validation (side not BUY or SELL, type
    not MARKET or LIMIT, quantity [<= 0]) or fails the balance check returns
    the reason of that failure and the engine unchanged: open orders,
    balances, positions and history are the ones before the call. *)
Theorem failed_create_changes_nothing :
  forall e uuid symbol side quantity order_type price tp sl leverage,
    (forall reason e',
        OrderEngine.create_order e uuid symbol side quantity order_type
          price tp sl leverage = (inl reason, e') -> e' = e)
    /\ (OrderEngine.str_in side ["BUY"; "SELL"] = false ->
        OrderEngine.create_order e uuid symbol side quantity order_type
          price tp sl leverage = (inl OrderEngine.InvalidSide, e))
    /\ (OrderEngine.str_in side ["BUY"; "SELL"] = true ->
        OrderEngine.str_in order_type ["MARKET"; "LIMIT"] = false ->
        OrderEngine.create_order e uuid symbol side quantity order_type
          price tp sl leverage = (inl OrderEngine.InvalidOrderType, e))
    /\ (OrderEngine.str_in side ["BUY"; "SELL"] = true ->
        OrderEngine.str_in order_type ["MARKET"; "LIMIT"] = true ->
        quantity <= 0 ->
        OrderEngine.create_order e uuid symbol side quantity order_type
          price tp sl leverage = (inl OrderEngine.InvalidQuantity, e))
    /\ (forall refusal,
        OrderEngine.str_in side ["BUY"; "SELL"] = true ->
        OrderEngine.str_in order_type ["MARKET"; "LIMIT"] = true ->
        0 < quantity ->
        BalanceManager.can_place_order (OrderEngine.balance_manager e)
          symbol side quantity
          (if String.eqb order_type "MARKET" then 0 else price)
          (Some (int_or leverage Settings.DEFAULT_LEVERAGE)) = Some refusal ->
        OrderEngine.create_order e uuid symbol side quantity order_type
          price tp sl leverage = (inl (OrderEngine.Refused refusal), e)).
Proof.
  intros. split; [|split; [|split; [|split]]].
  - intros reason e'. apply EngineFacts.create_order_rejected.
  - intros Hs. unfold OrderEngine.create_order. now rewrite Hs.
  - intros Hs Ht. unfold OrderEngine.create_order. now rewrite Hs, Ht.
  - intros Hs Ht Hq. unfold OrderEngine.create_order. rewrite Hs, Ht.
    apply Qle_bool_iff in Hq. now rewrite Hq.
  - intros refusal Hs Ht Hq Hc. unfold OrderEngine.create_order.
    rewrite Hs, Ht. simpl.
    destruct (Qle_bool quantity 0) eqn:Hle.
    + apply Qle_bool_iff in Hle. exfalso. apply (Qlt_not_le 0 quantity); auto.
    + rewrite Hc. unfold OrderEngine.str_in in Hs, Ht. simpl in Hs, Ht.
      unfold OrderEngine.OrderSide_of, OrderEngine.OrderType_of.
      destruct (String.eqb side "BUY"), (String.eqb side "SELL");
        try discriminate;
        destruct (String.eqb order_type "MARKET"),
                 (String.eqb order_type "LIMIT");
        try discriminate; reflexivity.
Qed.

Lemma failed_create_changes_nothing_witness :
  OrderEngine.create_order long_100 "o2" ADA "HOLD" 1 "MARKET" 0 None None
    None = (inl OrderEngine.InvalidSide, long_100)
  /\ OrderEngine.create_order long_100 "o2" ADA "BUY" 1 "STOP" 0 None None
       None = (inl OrderEngine.InvalidOrderType, long_100)
  /\ OrderEngine.create_order long_100 "o2" ADA "BUY" 0 "LIMIT" 1 None None
       None = (inl OrderEngine.InvalidQuantity, long_100)
  /\ OrderEngine.create_order long_100 "o2" ADA "BUY" 100000 "LIMIT" 1 None
       None None
     = (inl (OrderEngine.Refused
               (BalanceManager.InsufficientBalance
                  (100000 * 1 / inject_Z 10
                   + BalanceManager.calculate_commission (100000 * 1))
                  (Balance.free
                     (Balance.debit (Balance.mk "USDT" 1000 0 1000)
                        (100 * (1 + 1 * (5 # 10000)) / inject_Z 10
                         + BalanceManager.calculate_commission
                             (100 * (1 + 1 * (5 # 10000)))))))),
        long_100).
Proof.
  split; [|split; [|split]].
  - apply (failed_create_changes_nothing long_100 "o2" ADA "HOLD" 1 "MARKET"
             0 None None None). reflexivity.
  - apply (failed_create_changes_nothing long_100 "o2" ADA "BUY" 1 "STOP"
             0 None None None); reflexivity.
  - apply (failed_create_changes_nothing long_100 "o2" ADA "BUY" 0 "LIMIT"
             1 None None None); try reflexivity. discriminate.
  - apply (failed_create_changes_nothing long_100 "o2" ADA "BUY" 100000
             "LIMIT" 1 None None None); reflexivity.
Defined.

(** The requirement [create_order] checks for a market order: the order
    value is taken at the deferred price 0, which leaves the minimum
    commission. *)
Lemma market_total_required (quantity : Q) (leverage : Z) :
  quantity * 0 / inject_Z leverage
  + BalanceManager.calculate_commission (quantity * 0)
  == Settings.MIN_COMMISSION.
Proof.
  unfold BalanceManager.calculate_commission, py_max.
  assert (Qltb (quantity * 0 * Settings.COMMISSION_RATE)
               Settings.MIN_COMMISSION = true) as ->.
  { apply Qltb_true. unfold Settings.COMMISSION_RATE, Settings.MIN_COMMISSION.
    lra. }
  unfold Qdiv. ring.
Qed.

Lemma valid_strings side order_type :
  OrderEngine.str_in side ["BUY"; "SELL"] = true ->
  OrderEngine.str_in order_type ["MARKET"; "LIMIT"] = true ->
  exists oside otype,
    OrderEngine.OrderSide_of side = Some oside
    /\ OrderEngine.OrderType_of order_type = Some otype.
Proof.
  unfold OrderEngine.str_in, OrderEngine.OrderSide_of,
    OrderEngine.OrderType_of. simpl.
  destruct (String.eqb side "BUY"), (String.eqb side "SELL");
    try discriminate;
    destruct (String.eqb order_type "MARKET"),
             (String.eqb order_type "LIMIT");
    try discriminate; eauto.
Qed.

(** C1 (amended). For a market order [create_order] runs the balance check
    with the deferred execution price 0, whatever the market price is: with
    a valid side and a positive quantity it returns the insufficient-balance
    refusal (and the engine unchanged) exactly when the free USDT balance is
    below the minimum commission 0.04, and it stores the order otherwise.
    For a limit order with price [p] the check is against
    [q*p/L + commission(q*p)]. *)
Theorem market_order_check_uses_price_zero :
  forall e uuid symbol side quantity price tp sl leverage usdt,
    OrderEngine.str_in side ["BUY"; "SELL"] = true ->
    0 < quantity ->
    BalanceManager.get_balance (OrderEngine.balance_manager e) "USDT"
    = Some usdt ->
    let L := int_or leverage Settings.DEFAULT_LEVERAGE in
    (Balance.free usdt < Settings.MIN_COMMISSION ->
     exists required,
       required == Settings.MIN_COMMISSION
       /\ OrderEngine.create_order e uuid symbol side quantity "MARKET"
            price tp sl leverage
          = (inl (OrderEngine.Refused
                    (BalanceManager.InsufficientBalance required
                       (Balance.free usdt))), e))
    /\ (Settings.MIN_COMMISSION <= Balance.free usdt ->
        exists order,
          OrderEngine.create_order e uuid symbol side quantity "MARKET"
            price tp sl leverage
          = (inr order,
             OrderEngine.mk (OrderEngine.balance_manager e)
               (dict_set uuid order (OrderEngine.orders e))
               (OrderEngine.order_history e)))
    /\ (Balance.free usdt
        < quantity * price / inject_Z L
          + BalanceManager.calculate_commission (quantity * price) ->
        OrderEngine.create_order e uuid symbol side quantity "LIMIT"
          price tp sl leverage
        = (inl (OrderEngine.Refused
                  (BalanceManager.InsufficientBalance
                     (quantity * price / inject_Z L
                      + BalanceManager.calculate_commission
                          (quantity * price))
                     (Balance.free usdt))), e)).
Proof.
  intros e uuid symbol side quantity price tp sl leverage usdt Hs Hq Hu L.
  unfold BalanceManager.get_balance in Hu.
  assert (Qle_bool quantity 0 = false) as Hq'.
  { destruct (Qle_bool quantity 0) eqn:E; auto.
    apply Qle_bool_iff in E. exfalso. apply (Qlt_not_le 0 quantity); auto. }
  assert (int_or (Some L) Settings.DEFAULT_LEVERAGE = L) as HL.
  { unfold L, int_or. destruct leverage as [l|]; [|reflexivity].
    destruct (Z.eqb l 0) eqn:E; [reflexivity|]. now rewrite E. }
  split; [|split].
  - intros Hlt. eexists. split; [apply (market_total_required quantity L)|].
    destruct (valid_strings side "MARKET" Hs eq_refl)
      as (oside & otype & Hos & Hot).
    unfold OrderEngine.create_order. rewrite Hs, Hq', Hos, Hot. simpl.
    unfold BalanceManager.can_place_order. fold L. rewrite HL, Hu.
    rewrite (proj2 (Qltb_true _ _)); [reflexivity|].
    now rewrite market_total_required.
  - intros Hle.
    destruct (valid_strings side "MARKET" Hs eq_refl)
      as (oside & otype & Hos & Hot).
    unfold OrderEngine.create_order. rewrite Hs, Hq', Hos, Hot. simpl.
    unfold BalanceManager.can_place_order. fold L. rewrite HL, Hu.
    rewrite (proj2 (Qltb_false _ _)); [eexists; reflexivity|].
    now rewrite market_total_required.
  - intros Hlt.
    destruct (valid_strings side "LIMIT" Hs eq_refl)
      as (oside & otype & Hos & Hot).
    unfold OrderEngine.create_order. rewrite Hs, Hq', Hos, Hot. simpl.
    unfold BalanceManager.can_place_order. fold L. rewrite HL, Hu.
    rewrite (proj2 (Qltb_true _ _)); [reflexivity|exact Hlt].
Qed.

Lemma market_order_check_uses_price_zero_witness :
  exists order,
    OrderEngine.create_order (fresh None) "o1" ADA "BUY" 100000 "MARKET" 0
      None None None
    = (inr order,
       OrderEngine.mk (BalanceManager.__init__ None) [("o1", order)] []).
Proof.
  apply (market_order_check_uses_price_zero (fresh None) "o1" ADA "BUY"
           100000 0 None None None (Balance.mk "USDT" 1000 0 1000)).
  - reflexivity.
  - reflexivity.
  - reflexivity.
  - discriminate.
Defined.

(** C1, as stated, fails: on a fresh account of 1000 USDT a market buy of
    100000 units at leverage 10 needs, at the market price 1.00, a margin of
    10000 and a commission of 70, yet [create_order] accepts and records
    the order. *)
Lemma market_order_check_ignores_market_price :
  free_usdt (OrderEngine.balance_manager (fresh None))
  < 100000 * 1 / inject_Z 10
    + BalanceManager.calculate_commission (100000 * 1)
  /\ exists order e',
       OrderEngine.create_order (fresh None) "o1" ADA "BUY" 100000 "MARKET"
         0 None None (Some 10%Z) = (inr order, e')
       /\ dict_get "o1" (OrderEngine.orders e') = Some order.
Proof.
  split.
  - vm_compute. reflexivity.
  - eexists. eexists. split; reflexivity.
Qed.




Lemma string_length_append (a b : string) :
  String.length (a ++ b) = (String.length a + String.length b)%nat.
Proof. induction a as [|c a IH]; simpl; auto. Qed.

(** A position key is never the bare symbol it is built from. *)
Lemma position_key_not_symbol symbol side :
  BalanceManager.position_key symbol side <> symbol.
Proof.
  unfold BalanceManager.position_key. intros H.
  apply (f_equal String.length) in H.
  rewrite string_length_append in H. simpl in H. lia.
Qed.

(** What [get_position] can return in a well-formed book. *)
Lemma get_position_in_book bm symbol p :
  book_ok bm ->
  BalanceManager.get_position bm symbol = Some p ->
  exists r,
    In (symbol, r) (BalanceManager.positions bm)
    /\ p = BalanceManager.deref bm r
    /\ 0 < Position.quantity p
    /\ symbol = BalanceManager.position_key (Position.symbol p)
                  (Position.side p).
Proof.
  intros [_ Hall]. unfold BalanceManager.get_position.
  destruct (dict_get symbol (BalanceManager.positions bm)) as [r|] eqn:Hg;
    [|discriminate].
  simpl. intros [= <-]. apply dict_get_In in Hg.
  destruct (Hall _ _ Hg) as (_ & Hq & Hk). exists r. auto.
Qed.



(** C10 (amended). In every state the engine reaches from a fresh account,
    [get_position(symbol)] never returns a position of that symbol: the book
    is keyed by "symbol_direction", so the lookup of the bare symbol returns
    None, unless the symbol is itself the key of a position of another
    symbol, which is then what it returns. *)
Theorem get_position_misses_the_symbol :
  forall ib ops symbol,
    let bm := OrderEngine.balance_manager (run (fresh ib) ops) in
    (forall p,
        BalanceManager.get_position bm symbol = Some p ->
        Position.symbol p <> symbol
        /\ symbol = BalanceManager.position_key (Position.symbol p)
                      (Position.side p))
    /\ ((forall s d, symbol <> BalanceManager.position_key s d) ->
        BalanceManager.get_position bm symbol = None).
Proof.
  intros ib ops symbol bm.
  destruct (EngineFacts.run_ok ib ops) as (Hb & _). fold bm in Hb.
  assert (forall p,
             BalanceManager.get_position bm symbol = Some p ->
             Position.symbol p <> symbol
             /\ symbol = BalanceManager.position_key (Position.symbol p)
                           (Position.side p)) as H.
  { intros p Hg.
    destruct (get_position_in_book _ _ _ Hb Hg) as (r & _ & _ & _ & Hk).
    split; auto. intros Heq. rewrite Heq in Hk.
    symmetry in Hk. revert Hk. apply position_key_not_symbol. }
  split; auto.
  intros Hshape.
  destruct (BalanceManager.get_position bm symbol) as [p|] eqn:Hg; auto.
  destruct (H p eq_refl) as [_ Hk]. exfalso. exact (Hshape _ _ Hk).
Qed.

Lemma get_position_misses_the_symbol_witness :
  BalanceManager.get_position (OrderEngine.balance_manager long_100) ADA
  = None.
Proof.
  apply (get_position_misses_the_symbol None
           [ OpCreate "o1" ADA "BUY" 100 "MARKET" 0
                      (Some (105 # 100)) (Some (95 # 100)) None;
             OpExecute "o1" 1 1 1 ] ADA).
  intros s d H. unfold BalanceManager.position_key, ADA in H.
  destruct d; simpl in H;
    repeat (destruct s as [|? s]; simpl in H;
            [discriminate H|]; injection H as _ H);
    destruct s; discriminate H.
Defined.

(** C10, as stated, fails: after a position has been opened for the symbol
    "A" and one for the symbol "A_LONG", [get_position("A_LONG")] is not
    None; it returns the position of "A". *)
Lemma get_position_returns_another_symbol :
  let bm := OrderEngine.balance_manager two_symbols in
  dict_keys (BalanceManager.positions bm) = ["A_LONG"; "A_LONG_LONG"]
  /\ map Position.symbol (BalanceManager.get_all_positions bm)
     = ["A"; "A_LONG"]
  /\ exists p,
       BalanceManager.get_position bm "A_LONG" = Some p
       /\ Position.symbol p = "A".
Proof.
  vm_compute. repeat split. eexists. split; reflexivity.
Qed.

(** C7. Evaluation of the code on two same-direction opening fills: after
    a buy of 100 filled at 1.0005 (2001/2000) and a buy of 50 filled at
    2.001 the LONG
    position has quantity 50 and entry price 1.0005; the weighted-average
    law would give quantity 150 and entry price 1.334. *)
Theorem second_buy_reduces_the_position :
  let bm := OrderEngine.balance_manager two_buys in
  map (fun o => (order_summary o, Qred (Order.executed_price o),
                 Qred (Order.executed_quantity o)))
      (OrderEngine.order_history two_buys)
  = [ (("o1", BUY, LONG, FILLED), 2001 # 2000, 100);
      (("o2", BUY, LONG, FILLED), 2001 # 1000, 50) ]
  /\ exists p,
       BalanceManager.get_position bm "ADA-USDT_LONG" = Some p
       /\ Position.quantity p == 50
       /\ Position.entry_price p == 10005 # 10000
       /\ ~ Position.quantity p == 100 + 50
       /\ ~ Position.entry_price p
            == ((10005 # 10000) * 100 + (2001 # 1000) * 50) / (100 + 50).
Proof.
  vm_compute. split; [reflexivity|].
  eexists. split; [reflexivity|].
  repeat split; try reflexivity; discriminate.
Qed.

(** C3. Evaluation of the code on a LONG 100 with take-profit 1.05 and
    stop-loss 0.95 and a candle with high 1.10 and low 0.90: the scan lists
    the position twice (the older [check_tp_sl] lists it once), and the
    candle leaves two executed closing orders in the history, both sells of
    the full quantity. *)
Theorem both_thresholds_give_two_closing_orders :
  let e' :=
    OrderEngine.process_candle long_100 candle_ids ADA 1 (110 # 100)
      (90 # 100) 1 0 in
  map order_summary (OrderEngine.order_history long_100)
  = [("o1", BUY, LONG, FILLED)]
  /\ OrderEngine._check_tp_sl_improved long_100 ADA 1 (110 # 100)
       (90 # 100) 1
     = [(0%nat, "TP", 105 # 100); (0%nat, "SL", 95 # 100)]
  /\ BalanceManager.check_tp_sl (OrderEngine.balance_manager long_100) ADA
       1 (110 # 100) (90 # 100)
     = [0%nat]
  /\ map (fun o => (order_summary o, Qred (Order.quantity o)))
         (OrderEngine.order_history e')
     = [ (("o1", BUY, LONG, FILLED), 100);
         (("c0", SELL, SHORT, FILLED), 100);
         (("c1", SELL, SHORT, FILLED), 100) ]
  /\ OrderEngine.orders e' = [].
Proof.
  vm_compute. repeat split; reflexivity.
Qed.

(** ** The take-profit / stop-loss scan *)

Module ScanFacts.
Import OrderEngine.

(** A call of [execute_order] that gets past the two lookups succeeds and
    fills the order at the price it was given. *)
Lemma execute_order_success bm order ep eq usdt rm :
  dict_get "USDT" (BalanceManager.balances bm) = Some usdt ->
  BalanceManager.required_margin_of order (eq * ep) = Some rm ->
  BalanceManager.execute_order bm order ep eq
  = (true, snd (fst (BalanceManager.execute_order bm order ep eq)),
     Order.fill order ep eq (BalanceManager.calculate_commission (eq * ep))).
Proof.
  intros Hu Hm.
  destruct (dict_get (BalanceManager.position_key (Order.symbol order)
                        (Order.position_side order))
                     (BalanceManager.positions bm)) as [r|] eqn:Hk.
  - destruct (Qle_bool
                (Position.quantity (BalanceManager.deref bm r) - eq) 0)
      eqn:Hle.
    + now rewrite (BalanceFacts.execute_order_closes _ _ _ _ _ _ _
                     Hu Hm Hk Hle).
    + now rewrite (BalanceFacts.execute_order_reduces _ _ _ _ _ _ _
                     Hu Hm Hk Hle).
  - now rewrite (BalanceFacts.execute_order_opens _ _ _ _ _ _ Hu Hm Hk).
Qed.

Lemma can_place_order_usdt bm symbol side quantity price leverage :
  BalanceManager.can_place_order bm symbol side quantity price leverage
  = None ->
  exists usdt, dict_get "USDT" (BalanceManager.balances bm) = Some usdt.
Proof.
  unfold BalanceManager.can_place_order.
  destruct (dict_get "USDT" (BalanceManager.balances bm)); eauto.
  discriminate.
Qed.

Lemma dict_mem_set {V} (k : string) (v : V) d :
  dict_mem k (dict_set k v d) = true.
Proof. unfold dict_mem. now rewrite dict_get_set_eq. Qed.

(** One iteration of the first loop: either no order is created and the
    engine is as before, or one order is appended to the history, executed
    at the trigger price, and it is not left among the open orders. *)
Lemma close_one_spec e uuid symbol high low r tt x :
  let e' := close_one e uuid symbol high low (r, tt, x) in
  e' = e
  \/ exists o pending,
       order_history e' = (order_history e ++ [o])%list
       /\ executed_at x o
       /\ Order.id o = uuid
       /\ orders e' = dict_del uuid (dict_set uuid pending (orders e)).
Proof.
  unfold close_one.
  match goal with |- context [create_order ?a ?b ?c ?d ?q ?f ?g ?h ?i ?j] =>
    destruct (create_order a b c d q f g h i j) as [[reason|order] e1] eqn:Hc
  end; cbv zeta.
  - left. apply (EngineFacts.create_order_rejected _ _ _ _ _ _ _ _ _ _ _ _ Hc).
  - right.
    destruct (EngineFacts.create_order_created _ _ _ _ _ _ _ _ _ _ _ _ Hc)
      as (-> & Hq & Hcp & oside & otype & Hos & Hot & Ho).
    apply can_place_order_usdt in Hcp. destruct Hcp as [usdt Hu].
    injection Hot as <-.
    assert (Order.id order = uuid) as Hid by (rewrite Ho; reflexivity).
    unfold execute_market_order. cbn [balance_manager orders order_history].
    rewrite (execute_order_success _ order _ _ usdt
               (Order.quantity order * execution_price_of order x
                / inject_Z 10) Hu).
    2:{ rewrite Ho. reflexivity. }
    cbn [fst snd]. rewrite Hid, dict_mem_set.
    eexists. exists order. split; [reflexivity|]. split; [|split].
    + unfold executed_at, execution_price_of.
      rewrite Ho. cbn [Order.fill Order.status Order.order_type Order.side
                       Order.executed_quantity Order.executed_price
                       Order.quantity].
      destruct oside; cbn [OrderSide_eqb]; auto.
    + exact Hid.
    + reflexivity.
Qed.

Lemma close_one_keeps_absent e uuid symbol high low trigger k :
  dict_get k (orders e) = None ->
  dict_get k (orders (close_one e uuid symbol high low trigger)) = None.
Proof.
  intros Hk. destruct trigger as [[r tt] x].
  destruct (close_one_spec e uuid symbol high low r tt x)
    as [->|(o & pending & _ & _ & _ & ->)]; auto.
  destruct (String.eqb_spec uuid k) as [->|Hne].
  - apply dict_get_del_eq.
  - rewrite dict_get_del_neq, dict_get_set_neq; auto.
Qed.

Lemma close_triggered_keeps_absent l e uuid4 n symbol high low k :
  dict_get k (orders e) = None ->
  dict_get k (orders (close_triggered e uuid4 n symbol high low l)) = None.
Proof.
  revert e n. induction l as [|t l IH]; simpl; intros e n Hk; auto.
  apply IH. now apply close_one_keeps_absent.
Qed.

(** The first loop of [process_candle] appends to the history one order per
    trigger that passes [create_order], executed at the price of that
    trigger, and leaves none of them open. *)
Lemma close_triggered_spec l e uuid4 n symbol high low :
  let e' := close_triggered e uuid4 n symbol high low l in
  exists closing,
    order_history e' = (order_history e ++ closing)%list
    /\ Forall (fun o =>
                 (exists r tt x, In (r, tt, x) l /\ executed_at x o)
                 /\ dict_get (Order.id o) (orders e') = None)
              closing.
Proof.
  revert e n. induction l as [|[[r tt] x] l IH]; intros e n; cbn zeta.
  - exists []. simpl. split; [now rewrite app_nil_r | constructor].
  - cbn [close_triggered].
    destruct (IH (close_one e (uuid4 n) symbol high low (r, tt, x)) (S n))
      as (closing & Hh & Hall).
    destruct (close_one_spec e (uuid4 n) symbol high low r tt x)
      as [He|(o & pending & Ho & Hx & Hid & Hord)].
    + rewrite He in *. exists closing. split; auto.
      eapply Forall_impl; [|exact Hall].
      intros o [(r' & tt' & x' & Hin & Hx) Habs]. split; auto.
      exists r', tt', x'. split; auto. now right.
    + exists (o :: closing). split.
      * rewrite Hh, Ho, <- app_assoc. reflexivity.
      * constructor.
        -- split; [exists r, tt, x; split; auto; now left|].
           apply close_triggered_keeps_absent. rewrite Hord, Hid.
           apply dict_get_del_eq.
        -- eapply Forall_impl; [|exact Hall].
           intros o' [(r' & tt' & x' & Hin & Hx') Habs]. split; auto.
           exists r', tt', x'. split; auto. now right.
Qed.



End ScanFacts.



(** * Further properties of the code *)

(** ** Pricing *)

Module PricingFacts.

Lemma sorted_config :
  Settings.sorted_reverse Settings.SLIPPAGE_CONFIG
  = [ (10000%Z, 2 # 1000); (1000%Z, 1 # 1000);
      (100%Z, 5 # 10000); (0%Z, 1 # 10000) ].
Proof. reflexivity. Qed.

(** [get_slippage] by ranges of the volume. *)
Lemma get_slippage_cases v :
  (v < 100 /\ Settings.get_slippage v = 1 # 10000)
  \/ (100 <= v /\ v < 1000 /\ Settings.get_slippage v = 5 # 10000)
  \/ (1000 <= v /\ v < 10000 /\ Settings.get_slippage v = 1 # 1000)
  \/ (10000 <= v /\ Settings.get_slippage v = 2 # 1000).
Proof.
  unfold Settings.get_slippage, Settings.get_slippage_in.
  rewrite sorted_config. cbn [Settings.first_reached].
  change (inject_Z 10000) with 10000. change (inject_Z 1000) with 1000.
  change (inject_Z 100) with 100. change (inject_Z 0) with 0.
  destruct (Qle_bool 10000 v) eqn:E4.
  { apply Qle_bool_iff in E4. right; right; right. split; auto. }
  apply Qle_bool_false in E4.
  destruct (Qle_bool 1000 v) eqn:E3.
  { apply Qle_bool_iff in E3. right; right; left. repeat split; auto. }
  apply Qle_bool_false in E3.
  destruct (Qle_bool 100 v) eqn:E2.
  { apply Qle_bool_iff in E2. right; left. repeat split; auto. }
  apply Qle_bool_false in E2.
  left. split; auto.
  destruct (Qle_bool 0 v); reflexivity.
Qed.

Lemma get_slippage_bounds v :
  (1 # 10000) <= Settings.get_slippage v
  /\ Settings.get_slippage v <= 2 # 1000.
Proof.
  destruct (get_slippage_cases v)
    as [[H1 ->]|[(H1 & H2 & ->)|[(H1 & H2 & ->)|[H1 ->]]]];
    split; lra.
Qed.
End PricingFacts.

(** X1. The commission of an order is the minimum commission 0.04 for an
    order value below 400/7 (about 57.14 USDT) and 0.07% of the order value
    from there on; it is never below the minimum, also for a negative
    order value. *)
Theorem commission_is_rate_with_floor :
  forall order_value : Q,
    Settings.MIN_COMMISSION <= BalanceManager.calculate_commission order_value
    /\ order_value * Settings.COMMISSION_RATE
       <= BalanceManager.calculate_commission order_value
    /\ (order_value < 400 # 7 ->
        BalanceManager.calculate_commission order_value
        = Settings.MIN_COMMISSION)
    /\ (400 # 7 <= order_value ->
        BalanceManager.calculate_commission order_value
        = order_value * Settings.COMMISSION_RATE).
Proof.
  intros ov. unfold BalanceManager.calculate_commission, py_max.
  unfold Settings.COMMISSION_RATE, Settings.MIN_COMMISSION.
  destruct (Qltb (ov * (7 # 10000)) (4 # 100)) eqn:E.
  - apply Qltb_true in E. repeat split; try lra.
  - apply Qltb_false in E. repeat split; try lra.
Qed.

Lemma commission_is_rate_with_floor_witness :
  BalanceManager.calculate_commission 50 = Settings.MIN_COMMISSION
  /\ BalanceManager.calculate_commission 100
     = 100 * Settings.COMMISSION_RATE.
Proof.
  split.
  - apply (commission_is_rate_with_floor 50). reflexivity.
  - apply (commission_is_rate_with_floor 100). discriminate.
Defined.

(** X2. The slippage percentage is a step function of the order volume:
    0.01% below 100 (negative volumes included), 0.05% from 100, 0.1% from
    1000, 0.2% from 10000.  It never decreases when the volume grows and
    stays between 0.01% and 0.2%. *)
Theorem slippage_percentage_is_monotone :
  (forall v,
      (v < 100 -> Settings.get_slippage v = 1 # 10000)
      /\ (100 <= v -> v < 1000 -> Settings.get_slippage v = 5 # 10000)
      /\ (1000 <= v -> v < 10000 -> Settings.get_slippage v = 1 # 1000)
      /\ (10000 <= v -> Settings.get_slippage v = 2 # 1000))
  /\ (forall v, (1 # 10000) <= Settings.get_slippage v
                /\ Settings.get_slippage v <= 2 # 1000)
  /\ (forall v1 v2,
         v1 <= v2 -> Settings.get_slippage v1 <= Settings.get_slippage v2).
Proof.
  split; [|split].
  - intros v.
    destruct (PricingFacts.get_slippage_cases v)
      as [[H1 ->]|[(H1 & H2 & ->)|[(H1 & H2 & ->)|[H1 ->]]]];
      repeat split; intros; try reflexivity; exfalso; lra.
  - apply PricingFacts.get_slippage_bounds.
  - intros v1 v2 Hle.
    destruct (PricingFacts.get_slippage_cases v1)
      as [[H1 ->]|[(H1 & H2 & ->)|[(H1 & H2 & ->)|[H1 ->]]]];
      destruct (PricingFacts.get_slippage_cases v2)
        as [[K1 ->]|[(K1 & K2 & ->)|[(K1 & K2 & ->)|[K1 ->]]]];
      lra.
Qed.

Lemma slippage_percentage_is_monotone_witness :
  Settings.get_slippage 99 <= Settings.get_slippage 100.
Proof.
  apply slippage_percentage_is_monotone. discriminate.
Defined.

(** X3. [execute_market_order] hands [execute_order] a price on the
    unfavourable side of the market price: for a non-negative market price
    a buy is filled at or above it and a sell at or below it, in both cases
    within 0.2% of it (and at least 0.01% away). *)
Theorem execution_price_is_on_the_unfavourable_side :
  forall order current_price,
    0 <= current_price ->
    match Order.side order with
    | BUY =>
        current_price * (10001 # 10000)
        <= OrderEngine.execution_price_of order current_price
        /\ OrderEngine.execution_price_of order current_price
           <= current_price * (1002 # 1000)
    | SELL =>
        current_price * (998 # 1000)
        <= OrderEngine.execution_price_of order current_price
        /\ OrderEngine.execution_price_of order current_price
           <= current_price * (9999 # 10000)
    end.
Proof.
  intros order cp Hcp. unfold OrderEngine.execution_price_of,
    BalanceManager.calculate_slippage.
  destruct (PricingFacts.get_slippage_bounds (Order.quantity order * cp))
    as [Hlo Hhi].
  set (s := Settings.get_slippage (Order.quantity order * cp)) in *.
  destruct (Order.side order); cbn [OrderSide_eqb]; split; nra.
Qed.

Lemma execution_price_is_on_the_unfavourable_side_witness :
  1 * (10001 # 10000) <= OrderEngine.execution_price_of buy_order 1
  /\ OrderEngine.execution_price_of buy_order 1 <= 1 * (1002 # 1000).
Proof.
  apply (execution_price_is_on_the_unfavourable_side buy_order 1).
  discriminate.
Defined.

(** ** The order lifecycle *)

Module LifecycleFacts.
Import OrderEngine.

Lemma In_dict_set {V} (k k' : string) (v v' : V) d :
  In (k', v') (dict_set k v d) -> (k' = k /\ v' = v) \/ In (k', v') d.
Proof.
  induction d as [|[k0 v0] d IH]; simpl.
  - intros [[= <- <-]|[]]. auto.
  - destruct (String.eqb_spec k0 k) as [->|Hne]; simpl.
    + intros [[= <- <-]|H]; auto.
    + intros [H|H]; auto. destruct (IH H); auto.
Qed.

Lemma dict_del_absent {V} (k : string) (d : dict V) :
  dict_mem k d = false -> dict_del k d = d.
Proof.
  unfold dict_mem, dict_del. induction d as [|[k0 v0] d IH]; simpl; auto.
  destruct (String.eqb k0 k); simpl; [discriminate|].
  intros H. now rewrite IH.
Qed.

Lemma int_or_nonzero x : int_or x Settings.DEFAULT_LEVERAGE <> 0%Z.
Proof.
  unfold int_or. destruct x as [v|]; [|discriminate].
  destruct (Z.eqb_spec v 0); [discriminate|auto].
Qed.

Lemma required_margin_some order ov l :
  Order.leverage order = Some l -> l <> 0%Z ->
  BalanceManager.required_margin_of order ov = Some (ov / inject_Z l).
Proof.
  unfold BalanceManager.required_margin_of. intros -> Hl.
  destruct (Z.eqb_spec l 0); [contradiction|reflexivity].
Qed.

(** A successful [execute_market_order]: the order leaves the open map
    and its filled copy is appended to the history. *)
Lemma execute_market_order_success e order cp high low usdt l :
  dict_get "USDT" (BalanceManager.balances (balance_manager e)) = Some usdt ->
  Order.leverage order = Some l -> l <> 0%Z ->
  let ep := execution_price_of order cp in
  let q := Order.quantity order in
  let filled :=
    Order.fill order ep q (BalanceManager.calculate_commission (q * ep)) in
  execute_market_order e order cp high low
  = (true,
     mk (snd (fst (BalanceManager.execute_order (balance_manager e) order
                     ep q)))
        (dict_del (Order.id order) (orders e))
        (order_history e ++ [filled]),
     filled).
Proof.
  intros Hu Hl Hnz ep q filled. unfold execute_market_order. fold ep q.
  rewrite (ScanFacts.execute_order_success _ order ep q usdt _ Hu
             (required_margin_some order (q * ep) l Hl Hnz)).
  cbn [fst snd]. fold filled.
  destruct (dict_mem (Order.id order) (orders e)) eqn:Hm; auto.
  now rewrite dict_del_absent.
Qed.

(** A failed [execute_market_order] changes nothing. *)
Lemma execute_market_order_failure e order cp high low :
  fst (fst (execute_market_order e order cp high low)) = false ->
  execute_market_order e order cp high low = (false, e, order).
Proof.
  unfold execute_market_order.
  destruct (BalanceManager.execute_order (balance_manager e) order
              (execution_price_of order cp) (Order.quantity order))
    as [[ok bm'] o'] eqn:Hx.
  destruct ok; [discriminate|]. intros _.
  assert (fst (fst (BalanceManager.execute_order (balance_manager e) order
                      (execution_price_of order cp) (Order.quantity order)))
          = false) as Hf by now rewrite Hx.
  apply BalanceFacts.execute_order_fails in Hf. rewrite Hf in Hx.
  injection Hx as <- <-. now destruct e.
Qed.

Lemma execute_order_ledger_ok bm order ep eq :
  ledger_ok bm ->
  ledger_ok (snd (fst (BalanceManager.execute_order bm order ep eq))).
Proof.
  intros (b & Hb & Ha & Hl). unfold ledger_ok.
  destruct (BalanceFacts.execute_order_balances bm order ep eq)
    as [->|(usdt & x & Hu & [->|[m ->]])].
  - exists b. auto.
  - rewrite Hb in *. injection Hu as <-. eexists. split; [reflexivity|].
    auto.
  - rewrite Hb in *. injection Hu as <-. eexists. split; [reflexivity|].
    auto.
Qed.

Lemma update_position_prices_balances bm symbol cp :
  BalanceManager.balances (BalanceManager.update_position_prices bm symbol cp)
  = BalanceManager.balances bm
  /\ BalanceManager.positions
       (BalanceManager.update_position_prices bm symbol cp)
     = BalanceManager.positions bm
  /\ BalanceManager.total_pnl
       (BalanceManager.update_position_prices bm symbol cp)
     = BalanceManager.total_pnl bm.
Proof.
  unfold BalanceManager.update_position_prices.
  apply (EngineFacts.fold_left_preserves
           (fun b =>
              BalanceManager.balances b = BalanceManager.balances bm
              /\ BalanceManager.positions b = BalanceManager.positions bm
              /\ BalanceManager.total_pnl b = BalanceManager.total_pnl bm));
    auto.
Qed.

Lemma create_order_inv e uuid symbol side quantity order_type price
    tp sl leverage :
  engine_inv e ->
  engine_inv (snd (create_order e uuid symbol side quantity order_type price
                     tp sl leverage)).
Proof.
  intros He.
  destruct (create_order e uuid symbol side quantity order_type price
              tp sl leverage) as [[reason|order] e'] eqn:Hc; simpl.
  - now rewrite (EngineFacts.create_order_rejected _ _ _ _ _ _ _ _ _ _ _ _ Hc).
  - destruct (EngineFacts.create_order_created _ _ _ _ _ _ _ _ _ _ _ _ Hc)
      as (-> & Hq & _ & oside & otype & _ & _ & ->).
    destruct He as (Hb & Hl & Ho & Hh). split; [|split; [|split]]; auto.
    intros k o Hin. cbn [orders] in Hin. apply In_dict_set in Hin.
    destruct Hin as [[-> ->]|Hin]; [|now apply Ho].
    cbn. repeat split; auto. eexists. split; [reflexivity|].
    apply int_or_nonzero.
Qed.

Lemma execute_market_order_inv e order cp high low :
  engine_inv e -> 0 < Order.quantity order ->
  engine_inv (snd (fst (execute_market_order e order cp high low))).
Proof.
  intros (Hb & Hl & Ho & Hh) Hq.
  destruct (fst (fst (execute_market_order e order cp high low))) eqn:Hok.
  2:{ rewrite (execute_market_order_failure _ _ _ _ _ Hok). simpl.
      split; [|split; [|split]]; auto. }
  unfold execute_market_order in *.
  pose proof (BookFacts.execute_order_book_ok (balance_manager e) order
                (execution_price_of order cp) (Order.quantity order) Hb Hq)
    as Hb'.
  pose proof (execute_order_ledger_ok (balance_manager e) order
                (execution_price_of order cp) (Order.quantity order) Hl)
    as Hl'.
  destruct (BalanceManager.execute_order (balance_manager e) order
              (execution_price_of order cp) (Order.quantity order))
    as [[ok bm'] o'] eqn:Hx.
  destruct ok; [|discriminate]. cbn [fst snd] in *.
  split; [|split; [|split]]; auto.
  - intros k o Hin. cbn [orders] in Hin. apply Ho.
    destruct (dict_mem _ _); auto.
    apply In_dict_del in Hin. tauto.
  - intros o Hin. cbn [order_history] in Hin. apply in_app_or in Hin.
    destruct Hin as [Hin|[<-|[]]]; [now apply Hh|].
    left.
    destruct Hl as (b & Hbal & _).
    assert (dict_get "USDT" (BalanceManager.balances (balance_manager e))
            = Some b) as Hu by now rewrite Hbal.
    destruct (BalanceManager.required_margin_of order
                (Order.quantity order * execution_price_of order cp))
      as [rm|] eqn:Hm.
    + rewrite (ScanFacts.execute_order_success _ _ _ _ _ _ Hu Hm) in Hx.
      injection Hx as _ <-. reflexivity.
    + unfold BalanceManager.execute_order in Hx. rewrite Hm in Hx.
      discriminate.
Qed.

Lemma cancel_order_inv e order_id :
  engine_inv e -> engine_inv (snd (cancel_order e order_id)).
Proof.
  intros (Hb & Hl & Ho & Hh). unfold cancel_order.
  destruct (dict_get order_id (orders e)) as [order|]; simpl.
  - split; [|split; [|split]]; auto.
    + intros k o Hin. cbn [orders] in Hin. apply In_dict_del in Hin.
      apply Ho. tauto.
    + intros o Hin. cbn [order_history] in Hin. apply in_app_or in Hin.
      destruct Hin as [Hin|[<-|[]]]; [now apply Hh|]. now right.
  - split; [|split; [|split]]; auto.
Qed.

Lemma close_one_inv e uuid symbol high low trigger :
  engine_inv e -> engine_inv (close_one e uuid symbol high low trigger).
Proof.
  intros He. destruct trigger as [[r tt] x]. unfold close_one.
  match goal with |- context [create_order ?a ?b ?c ?d ?q ?f ?g ?h ?i ?j] =>
    pose proof (create_order_inv a b c d q f g h i j He) as He1;
    destruct (create_order a b c d q f g h i j) as [[reason|order] e1] eqn:Hc
  end; simpl in He1; auto.
  apply execute_market_order_inv; auto.
  destruct (EngineFacts.create_order_created _ _ _ _ _ _ _ _ _ _ _ _ Hc)
    as (_ & Hq & _ & oside & otype & _ & _ & ->). exact Hq.
Qed.

Lemma close_triggered_inv l e uuid4 n symbol high low :
  engine_inv e -> engine_inv (close_triggered e uuid4 n symbol high low l).
Proof.
  revert e n. induction l as [|t l IH]; simpl; intros e n He; auto.
  apply IH. now apply close_one_inv.
Qed.

Lemma execute_pending_inv e symbol high low close :
  engine_inv e -> engine_inv (execute_pending e symbol high low close).
Proof.
  intros He. unfold execute_pending.
  apply (EngineFacts.fold_left_preserves engine_inv); auto.
  intros a o Hin Ha. apply execute_market_order_inv; auto.
  apply filter_In in Hin. destruct Hin as [Hin _].
  unfold dict_values in Hin. apply in_map_iff in Hin.
  destruct Hin as [[k o'] [<- Hin]].
  destruct He as (_ & _ & Ho & _).
  now destruct (Ho _ _ Hin) as (_ & _ & Hq & _).
Qed.

Lemma mark_inv e symbol close :
  engine_inv e ->
  engine_inv (set_balance_manager e
                (BalanceManager.update_position_prices (balance_manager e)
                   symbol close)).
Proof.
  intros (Hb & Hl & Ho & Hh).
  destruct (update_position_prices_balances (balance_manager e) symbol close)
    as (H1 & _ & _).
  split; [|split; [|split]]; auto.
  - cbn [balance_manager set_balance_manager].
    unfold book_ok in *.
    pose proof (EngineFacts.fold_left_preserves
                  (fun b => book_ok b)
                  (fun (bm' : BalanceManager.t) (kr : string * nat) =>
                     BalanceManager.assign bm' (snd kr)
                       (BalanceManager.mark symbol close
                          (BalanceManager.deref bm' (snd kr))))) as Hf.
    apply Hf; auto. clear Hf.
    intros a [k r] _ Ha. cbn [snd].
    destruct (EngineFacts.mark_fields symbol close (BalanceManager.deref a r))
      as (Hs & Hd & Hq).
    unfold book_ok, BalanceManager.assign. simpl.
    destruct (Nat.lt_ge_cases r (length (BalanceManager.heap a)))
      as [Hlt|Hge]; [|now rewrite store_set_beyond].
    destruct (in_dec Nat.eq_dec r
                (dict_values (BalanceManager.positions a))) as [Hin|Hnin].
    + apply BookFacts.book_wf_assign; auto.
      rewrite Hq. unfold dict_values in Hin. apply in_map_iff in Hin.
      destruct Hin as [[k' r'] [Hr Hin]]. simpl in Hr. subst r'.
      destruct Ha as [_ Hall].
      now destruct (Hall _ _ Hin) as (_ & Hpos & _).
    + destruct Ha as [Hnd Hall]. split; auto. intros k' r' Hin.
      destruct (Hall _ _ Hin) as (Hlt' & Hpos & Hk).
      rewrite store_set_length. split; auto.
      rewrite nth_store_set_neq; auto.
      intros ->. apply Hnin. unfold dict_values. apply in_map_iff.
      now exists (k', r').
  - cbn [balance_manager set_balance_manager]. unfold ledger_ok.
    rewrite H1. exact Hl.
Qed.

Lemma process_candle_inv e uuid4 symbol o h l c v :
  engine_inv e -> engine_inv (process_candle e uuid4 symbol o h l c v).
Proof.
  intros He. unfold process_candle.
  apply execute_pending_inv, close_triggered_inv, mark_inv, He.
Qed.

Lemma step_inv e op : engine_inv e -> engine_inv (step e op).
Proof.
  intros He. destruct op; simpl.
  - now apply create_order_inv.
  - destruct (dict_get order_id (orders e)) as [order|] eqn:Hg; auto.
    apply execute_market_order_inv; auto.
    destruct He as (_ & _ & Ho & _). apply dict_get_In in Hg.
    now destruct (Ho _ _ Hg) as (_ & _ & Hq & _).
  - now apply process_candle_inv.
  - now apply cancel_order_inv.
Qed.

Lemma fresh_inv ib : engine_inv (fresh ib).
Proof.
  unfold fresh, __init__, engine_inv. simpl. split; [|split; [|split]].
  - split; [constructor | simpl; tauto].
  - eexists. split; [reflexivity|]. auto.
  - intros k o [].
  - intros o [].
Qed.

Lemma run_from_inv ops e : engine_inv e -> engine_inv (run e ops).
Proof.
  unfold run. apply (EngineFacts.fold_left_preserves engine_inv).
  intros a b _. apply step_inv.
Qed.

Lemma run_inv ib ops : engine_inv (run (fresh ib) ops).
Proof. apply run_from_inv, fresh_inv. Qed.
End LifecycleFacts.

(** X4. In every state the engine reaches from a fresh account, an open
    order is stored under its own id and is PENDING, and every order of the
    history is FILLED or CANCELLED: the open map and the history never hold
    an order in the wrong status. *)
Theorem open_orders_pending_history_terminal :
  forall ib ops,
    let e := run (fresh ib) ops in
    (forall k o,
        OrderEngine.get_order e k = Some o ->
        Order.id o = k /\ Order.status o = PENDING)
    /\ (forall symbol o,
           In o (OrderEngine.get_open_orders e symbol) ->
           Order.status o = PENDING)
    /\ (forall o,
           In o (OrderEngine.order_history e) ->
           Order.status o = FILLED \/ Order.status o = CANCELLED).
Proof.
  intros ib ops e.
  destruct (LifecycleFacts.run_inv ib ops) as (_ & _ & Ho & Hh).
  fold e in Ho, Hh. split; [|split].
  - intros k o Hg. apply dict_get_In in Hg.
    destruct (Ho _ _ Hg) as (H1 & H2 & _). auto.
  - intros symbol o Hin. unfold OrderEngine.get_open_orders in Hin.
    assert (In o (dict_values (OrderEngine.orders e))) as Hv.
    { destruct (truthy_str symbol); auto. apply filter_In in Hin. tauto. }
    unfold dict_values in Hv. apply in_map_iff in Hv.
    destruct Hv as [[k o'] [<- Hv]].
    now destruct (Ho _ _ Hv) as (_ & H2 & _).
  - exact Hh.
Qed.

(** X5. In every state the engine reaches from a fresh account the ledger
    holds exactly one balance, USDT, with nothing locked: the engine never
    moves funds to [locked], so [total] equals [free]. *)
Theorem engine_never_locks_funds :
  forall ib ops,
    exists b,
      BalanceManager.get_all_balances
        (OrderEngine.balance_manager (run (fresh ib) ops)) = [b]
      /\ BalanceManager.get_balance
           (OrderEngine.balance_manager (run (fresh ib) ops)) "USDT" = Some b
      /\ Balance.asset b = "USDT"
      /\ Balance.locked b = 0
      /\ Balance.total b == Balance.free b.
Proof.
  intros ib ops.
  destruct (LifecycleFacts.run_inv ib ops) as (_ & (b & Hb & Ha & Hl) & _).
  destruct (EngineFacts.run_ok ib ops) as (_ & Hbal & _).
  exists b. unfold BalanceManager.get_all_balances, BalanceManager.get_balance.
  rewrite Hb. repeat split; auto.
  assert (balance_ok b) as Hok.
  { apply (Hbal "USDT"). now rewrite Hb. }
  unfold balance_ok in Hok. rewrite Hok, Hl. ring.
Qed.

(** X6. In every state the engine reaches from a fresh account, the market
    execution of an open order succeeds: it returns True, the order leaves
    the open map, and its copy, FILLED for its full quantity at the market
    price adjusted by slippage, is appended to the history. *)
Theorem execution_of_an_open_order_succeeds :
  forall ib ops k order cp high low,
    let e := run (fresh ib) ops in
    OrderEngine.get_order e k = Some order ->
    let result := OrderEngine.execute_market_order e order cp high low in
    let e' := snd (fst result) in
    fst (fst result) = true
    /\ OrderEngine.get_order e' k = None
    /\ OrderEngine.order_history e'
       = (OrderEngine.order_history e ++ [snd result])%list
    /\ Order.status (snd result) = FILLED
    /\ Order.executed_quantity (snd result) = Order.quantity order
    /\ Order.executed_price (snd result)
       = OrderEngine.execution_price_of order cp.
Proof.
  intros ib ops k order cp high low e Hg result e'.
  destruct (LifecycleFacts.run_inv ib ops) as (_ & (b & Hb & _) & Ho & _).
  fold e in Hb, Ho. unfold OrderEngine.get_order in *.
  apply dict_get_In in Hg.
  destruct (Ho _ _ Hg) as (Hid & _ & _ & l & Hl & Hnz).
  assert (dict_get "USDT"
            (BalanceManager.balances (OrderEngine.balance_manager e))
          = Some b) as Hu by now rewrite Hb.
  subst e' result.
  rewrite (LifecycleFacts.execute_market_order_success e order cp high low
             b l Hu Hl Hnz).
  cbn [fst snd OrderEngine.orders OrderEngine.order_history].
  rewrite Hid, dict_get_del_eq. repeat split; reflexivity.
Qed.

Lemma execution_of_an_open_order_succeeds_witness :
  fst (fst (OrderEngine.execute_market_order two_open_orders
              (Order.mk "m1" ADA SELL SHORT MARKET 5 0 0 0 PENDING None None
                        0 (Some 10%Z)) 2 2 2)) = true.
Proof.
  apply (execution_of_an_open_order_succeeds None
           [ OpCreate "l1" ADA "BUY" 10 "LIMIT" 1 None None None;
             OpCreate "m1" ADA "SELL" 5 "MARKET" 0 None None None ]
           "m1").
  reflexivity.
Defined.

Lemma dict_del_set_absent {V} (k : string) (v : V) (d : dict V) :
  dict_get k d = None -> dict_del k (dict_set k v d) = d.
Proof.
  intros H. rewrite (dict_set_absent _ _ _ H). unfold dict_del.
  rewrite filter_app. simpl. rewrite String.eqb_refl. simpl.
  rewrite app_nil_r.
  induction d as [|[k0 v0] d IH]; simpl in *; auto.
  destruct (String.eqb k0 k); [discriminate|]. simpl. now rewrite IH.
Qed.

(** X7. [cancel_order] on an id that is not open fails and changes
    nothing.  On an open order it succeeds: the order leaves the open map,
    its copy with status CANCELLED is appended to the history, balances and
    positions are untouched, and a second cancellation of the same id
    fails. *)
Theorem cancel_moves_the_order_to_history :
  forall e order_id,
    (OrderEngine.get_order e order_id = None ->
     OrderEngine.cancel_order e order_id = (false, e))
    /\ (forall order,
           OrderEngine.get_order e order_id = Some order ->
           let e' := snd (OrderEngine.cancel_order e order_id) in
           fst (OrderEngine.cancel_order e order_id) = true
           /\ OrderEngine.get_order e' order_id = None
           /\ OrderEngine.order_history e'
              = (OrderEngine.order_history e
                 ++ [Order.set_status order CANCELLED])%list
           /\ OrderEngine.balance_manager e' = OrderEngine.balance_manager e
           /\ (forall k, k <> order_id ->
                         OrderEngine.get_order e' k
                         = OrderEngine.get_order e k)
           /\ OrderEngine.cancel_order e' order_id = (false, e')).
Proof.
  intros e order_id. unfold OrderEngine.get_order. split.
  - intros H. unfold OrderEngine.cancel_order. now rewrite H.
  - intros order H.
    assert (OrderEngine.cancel_order e order_id
            = (true,
               OrderEngine.mk (OrderEngine.balance_manager e)
                 (dict_del order_id (OrderEngine.orders e))
                 (OrderEngine.order_history e
                  ++ [Order.set_status order CANCELLED]))) as Hc.
    { unfold OrderEngine.cancel_order. now rewrite H. }
    rewrite Hc.
    cbn [fst snd OrderEngine.orders OrderEngine.order_history
         OrderEngine.balance_manager].
    split; [|split; [|split; [|split; [|split]]]]; auto.
    + apply dict_get_del_eq.
    + intros k Hk. apply dict_get_del_neq. auto.
    + unfold OrderEngine.cancel_order.
      cbn [OrderEngine.orders]. now rewrite dict_get_del_eq.
Qed.

Lemma cancel_moves_the_order_to_history_witness :
  OrderEngine.cancel_order two_open_orders "zz" = (false, two_open_orders)
  /\ fst (OrderEngine.cancel_order two_open_orders "l1") = true.
Proof.
  split.
  - apply (proj1 (cancel_moves_the_order_to_history two_open_orders "zz")).
    reflexivity.
  - apply (proj2 (cancel_moves_the_order_to_history two_open_orders "l1")
             (Order.mk "l1" ADA BUY LONG LIMIT 10 1 0 0 PENDING None None 0
                       (Some 10%Z))).
    reflexivity.
Defined.

(** X8. An accepted [create_order] reserves nothing: balances, positions
    and history are as before, the new order is found by [get_order] under
    its id, PENDING with nothing executed, and the lookups of other ids are
    unchanged.  When the id was not open before, cancelling the new order
    restores the open map. *)
Theorem created_order_is_open_and_reserves_nothing :
  forall e uuid symbol side quantity order_type price tp sl leverage order e',
    OrderEngine.create_order e uuid symbol side quantity order_type price
      tp sl leverage = (inr order, e') ->
    OrderEngine.balance_manager e' = OrderEngine.balance_manager e
    /\ OrderEngine.order_history e' = OrderEngine.order_history e
    /\ OrderEngine.get_order e' uuid = Some order
    /\ Order.id order = uuid
    /\ Order.status order = PENDING
    /\ Order.executed_quantity order = 0
    /\ Order.quantity order = quantity
    /\ (forall k, k <> uuid ->
                  OrderEngine.get_order e' k = OrderEngine.get_order e k)
    /\ (OrderEngine.get_order e uuid = None ->
        OrderEngine.orders (snd (OrderEngine.cancel_order e' uuid))
        = OrderEngine.orders e).
Proof.
  intros e uuid symbol side quantity order_type price tp sl leverage order e'
         Hc.
  destruct (EngineFacts.create_order_created _ _ _ _ _ _ _ _ _ _ _ _ Hc)
    as (-> & Hq & _ & oside & otype & _ & _ & ->).
  unfold OrderEngine.get_order.
  cbn [OrderEngine.balance_manager OrderEngine.order_history
       OrderEngine.orders Order.id Order.status Order.executed_quantity
       Order.quantity].
  rewrite dict_get_set_eq.
  split; [|split; [|split; [|split; [|split; [|split; [|split; [|split]]]]]]];
    auto.
  - intros k Hk. apply dict_get_set_neq. auto.
  - intros Habs. unfold OrderEngine.cancel_order.
    cbn [OrderEngine.orders]. rewrite dict_get_set_eq.
    cbn [snd OrderEngine.orders]. now apply dict_del_set_absent.
Qed.

Lemma created_order_is_open_and_reserves_nothing_witness :
  OrderEngine.get_order
    (snd (OrderEngine.create_order long_100 "o9" ADA "SELL" 3 "LIMIT" 2
            None None None)) "o9"
  = Some (Order.mk "o9" ADA SELL SHORT LIMIT 3 2 0 0 PENDING None None 0
                   (Some 10%Z)).
Proof.
  apply (created_order_is_open_and_reserves_nothing long_100 "o9" ADA "SELL"
           3 "LIMIT" 2 None None None).
  reflexivity.
Defined.

(** ** Candles *)

Module CandleFacts.
Import OrderEngine.

(** A successful [execute_order] returns the filled copy of the order. *)
Lemma execute_order_true_order bm order ep eq :
  fst (fst (BalanceManager.execute_order bm order ep eq)) = true ->
  snd (BalanceManager.execute_order bm order ep eq)
  = Order.fill order ep eq (BalanceManager.calculate_commission (eq * ep)).
Proof.
  destruct (BalanceManager.required_margin_of order (eq * ep))
    as [rm|] eqn:Hm.
  2:{ unfold BalanceManager.execute_order. rewrite Hm. discriminate. }
  destruct (dict_get "USDT" (BalanceManager.balances bm)) as [usdt|] eqn:Hu.
  2:{ unfold BalanceManager.execute_order. rewrite Hm, Hu. discriminate. }
  intros _. now rewrite (ScanFacts.execute_order_success _ _ _ _ _ _ Hu Hm).
Qed.

(** What [execute_market_order] does to the history. *)
Lemma execute_market_order_history e order cp high low :
  let e' := snd (fst (execute_market_order e order cp high low)) in
  order_history e' = order_history e
  \/ exists o,
       order_history e' = (order_history e ++ [o])%list
       /\ Order.status o = FILLED
       /\ Order.order_type o = Order.order_type order
       /\ Order.symbol o = Order.symbol order
       /\ Order.id o = Order.id order.
Proof.
  unfold execute_market_order.
  pose proof (execute_order_true_order (balance_manager e) order
                (execution_price_of order cp) (Order.quantity order)) as Ht.
  destruct (BalanceManager.execute_order (balance_manager e) order
              (execution_price_of order cp) (Order.quantity order))
    as [[ok bm'] o'].
  destruct ok; cbn [fst snd order_history] in *; auto.
  right. exists o'. rewrite (Ht eq_refl). auto.
Qed.

(** The second loop of [process_candle] appends filled market orders of
    the symbol only. *)
Lemma execute_pending_history e symbol high low close :
  exists later,
    order_history (execute_pending e symbol high low close)
    = (order_history e ++ later)%list
    /\ Forall (fun o => Order.status o = FILLED
                        /\ Order.order_type o = MARKET
                        /\ Order.symbol o = symbol) later.
Proof.
  unfold execute_pending.
  set (l := filter _ _).
  assert (Forall (fun o => pending_market symbol o = true) l) as Hl.
  { apply Forall_forall. intros o Hin. apply filter_In in Hin. tauto. }
  clearbody l. revert e.
  induction l as [|o l IH]; intros e; simpl.
  - exists []. split; [now rewrite app_nil_r | constructor].
  - inversion Hl as [|? ? Ho Hl']; subst.
    destruct (IH Hl'
                (snd (fst (execute_market_order e o close high low))))
      as (later & Hh & Hall).
    destruct (execute_market_order_history e o close high low)
      as [He|(o' & He & Hs & Ht & Hsym & _)].
    + exists later. rewrite Hh, He. auto.
    + exists (o' :: later). rewrite Hh, He, <- app_assoc. split; auto.
      constructor; auto.
      unfold pending_market in Ho. apply andb_true_iff in Ho.
      destruct Ho as [Ho1 Ho2]. apply String.eqb_eq in Ho1.
      rewrite Hs, Ht, Hsym. repeat split; auto.
      destruct (Order.order_type o); [reflexivity|discriminate].
Qed.

(** The second loop executes every selected order when executions
    succeed: none of them is left open. *)
Lemma execute_pending_orders l e close high low :
  engine_inv e ->
  (forall o, In o l ->
             0 < Order.quantity o
             /\ exists lev, Order.leverage o = Some lev /\ lev <> 0%Z) ->
  let e' :=
    fold_left
      (fun e' order =>
         snd (fst (execute_market_order e' order close high low))) l e in
  engine_inv e'
  /\ forall k o,
       In (k, o) (orders e') ->
       In (k, o) (orders e) /\ forall o', In o' l -> Order.id o' <> k.
Proof.
  revert e. induction l as [|o l IH]; intros e He Hl; simpl.
  - split; [exact He|]. intros k o' Hin. split; [exact Hin|].
    intros ? [].
  - destruct (Hl o (or_introl eq_refl)) as (Hq & lev & Hlev & Hnz).
    pose proof (LifecycleFacts.execute_market_order_inv e o close high low
                  He Hq) as He1.
    destruct He as (_ & (b & Hb & _) & _).
    assert (dict_get "USDT" (BalanceManager.balances (balance_manager e))
            = Some b) as Hu by now rewrite Hb.
    pose proof (LifecycleFacts.execute_market_order_success e o close high
                  low b lev Hu Hlev Hnz) as Hx.
    cbv zeta in Hx.
    destruct (IH (snd (fst (execute_market_order e o close high low))) He1)
      as (Hinv & Hsub).
    { intros o' Hin. apply Hl. now right. }
    split; auto.
    intros k o' Hin. destruct (Hsub k o' Hin) as (Hin1 & Hne).
    rewrite Hx in Hin1. cbn [fst snd orders] in Hin1.
    apply In_dict_del in Hin1. destruct Hin1 as [Hin1 Hk].
    split; auto.
    intros o'' [<-|Hin'']; auto.
Qed.
End CandleFacts.


(** X10. In every state the engine reaches from a fresh account,
    [process_candle] leaves no market order of the candle's symbol open:
    every pending market order of that symbol is executed by the call. *)
Theorem candle_executes_every_pending_market_order :
  forall ib ops uuid4 symbol open_price high low close volume o,
    In o (OrderEngine.get_open_orders
            (OrderEngine.process_candle (run (fresh ib) ops) uuid4 symbol
               open_price high low close volume) None) ->
    pending_market symbol o = false.
Proof.
  intros ib ops uuid4 symbol open_price high low close volume o Hin.
  unfold OrderEngine.get_open_orders in Hin. cbn [truthy_str] in Hin.
  unfold OrderEngine.process_candle, OrderEngine.execute_pending in Hin.
  set (e2 := OrderEngine.close_triggered _ _ _ _ _ _ _) in Hin.
  assert (engine_inv e2) as He2.
  { apply LifecycleFacts.close_triggered_inv, LifecycleFacts.mark_inv,
      LifecycleFacts.run_inv. }
  set (l := filter _ (dict_values (OrderEngine.orders e2))) in Hin.
  destruct (CandleFacts.execute_pending_orders l e2 close high low He2)
    as ((_ & _ & Ho' & _) & Hsub).
  { intros o' Hin'. apply filter_In in Hin'. destruct Hin' as [Hin' _].
    unfold dict_values in Hin'. apply in_map_iff in Hin'.
    destruct Hin' as [[k o''] [<- Hin']].
    destruct He2 as (_ & _ & Ho & _).
    destruct (Ho _ _ Hin') as (_ & _ & Hq & Hlev). auto. }
  unfold dict_values in Hin. apply in_map_iff in Hin.
  destruct Hin as [[k o'] [<- Hin]]. cbn [snd].
  destruct (Hsub k o' Hin) as (Hin2 & Hne).
  destruct (pending_market symbol o') eqn:Hp; auto.
  exfalso. apply (Hne o').
  - apply filter_In. split; auto.
    unfold dict_values. apply in_map_iff. now exists (k, o').
  - destruct He2 as (_ & _ & Ho & _). now destruct (Ho _ _ Hin2).
Qed.

Lemma candle_executes_every_pending_market_order_witness :
  pending_market ADA
    (Order.mk "l1" ADA BUY LONG LIMIT 10 1 0 0 PENDING None None 0
              (Some 10%Z)) = false.
Proof.
  apply (candle_executes_every_pending_market_order None
           [ OpCreate "l1" ADA "BUY" 10 "LIMIT" 1 None None None;
             OpCreate "m1" ADA "SELL" 5 "MARKET" 0 None None None ]
           candle_ids ADA 1 1 1 1 0).
  vm_compute. left. reflexivity.
Defined.

(** X11. [process_candle] never fills a limit order: every order the call
    appends to the history, whatever the state of the engine, is a FILLED
    market order. *)
Theorem candle_fills_market_orders_only :
  forall e uuid4 symbol open_price high low close volume,
    exists later,
      OrderEngine.order_history
        (OrderEngine.process_candle e uuid4 symbol open_price high low close
           volume)
      = (OrderEngine.order_history e ++ later)%list
      /\ Forall (fun o => Order.status o = FILLED
                          /\ Order.order_type o = MARKET) later.
Proof.
  intros e uuid4 symbol open_price high low close volume.
  unfold OrderEngine.process_candle.
  match goal with
  | |- context [OrderEngine.execute_pending ?a ?b ?c ?d ?f] =>
      destruct (CandleFacts.execute_pending_history a b c d f)
        as (l2 & H2 & Hall2)
  end.
  match goal with
  | _ : context [OrderEngine.close_triggered ?a ?b ?c ?d ?f ?g ?h] |- _ =>
      destruct (ScanFacts.close_triggered_spec h a b c d f g)
        as (l1 & Hl1 & Hall1)
  end.
  cbv zeta in Hl1. rewrite Hl1 in H2.
  cbn [OrderEngine.order_history OrderEngine.set_balance_manager] in H2.
  exists (l1 ++ l2)%list. split; [now rewrite app_assoc|].
  apply Forall_app. split.
  - eapply Forall_impl; [|exact Hall1].
    intros o [(r & tt & x & _ & Hx) _].
    destruct Hx as (Ha & Hb & _). auto.
  - eapply Forall_impl; [|exact Hall2].
    intros o (Ha & Hb & _). auto.
Qed.

(** ** Queries *)

Lemma slice_from_last {A} (limit : Z) (l : list A) :
  (0 < limit)%Z -> slice_from (- limit) l = lastn (Z.to_nat limit) l.
Proof.
  intros H. unfold slice_from, lastn.
  destruct (Z.ltb_spec (- limit) 0); [|lia]. f_equal. lia.
Qed.

Lemma slice_from_drop {A} (limit : Z) (l : list A) :
  (limit < 0)%Z -> slice_from (- limit) l = skipn (Z.to_nat (- limit)) l.
Proof.
  intros H. unfold slice_from.
  destruct (Z.ltb_spec (- limit) 0); [lia|].
  destruct (Z.le_gt_cases (- limit) (Z.of_nat (length l))) as [Hle|Hgt].
  - now rewrite Z.min_l.
  - rewrite Z.min_r by lia. rewrite Nat2Z.id, skipn_all.
    symmetry. apply skipn_all2. lia.
Qed.

Lemma of_symbol_length symbol l :
  (length (of_symbol symbol l) <= length l)%nat.
Proof.
  unfold of_symbol. destruct (truthy_str symbol); auto.
  apply filter_length_le.
Qed.

(** X12. [get_order_history(symbol, limit)] applies the limit before the
    symbol filter: for a positive limit it returns the orders of the symbol
    among the last [limit] orders of the whole history, hence at most
    [limit] orders, and possibly none although the history holds orders of
    that symbol.  A limit of 0 returns every order of the symbol, and a
    negative limit drops the first [-limit] orders of the history instead
    of limiting. *)
Theorem history_limit_applies_before_symbol_filter :
  forall e symbol limit,
    ((0 < limit)%Z ->
     OrderEngine.get_order_history e symbol limit
     = of_symbol symbol
         (lastn (Z.to_nat limit) (OrderEngine.order_history e))
     /\ (Z.of_nat (length (OrderEngine.get_order_history e symbol limit))
         <= limit)%Z)
    /\ (limit = 0%Z ->
        OrderEngine.get_order_history e symbol limit
        = of_symbol symbol (OrderEngine.order_history e))
    /\ ((limit < 0)%Z ->
        OrderEngine.get_order_history e symbol limit
        = of_symbol symbol
            (skipn (Z.to_nat (- limit)) (OrderEngine.order_history e))).
Proof.
  intros e symbol limit. unfold OrderEngine.get_order_history.
  fold (of_symbol symbol
          (if (limit =? 0)%Z then OrderEngine.order_history e
           else slice_from (- limit) (OrderEngine.order_history e))).
  split; [|split].
  - intros H. destruct (Z.eqb_spec limit 0); [lia|].
    rewrite slice_from_last by auto. split; auto.
    pose proof (of_symbol_length symbol
                  (lastn (Z.to_nat limit) (OrderEngine.order_history e))).
    unfold lastn in *. rewrite length_skipn in *. lia.
  - intros ->. reflexivity.
  - intros H. destruct (Z.eqb_spec limit 0); [lia|].
    now rewrite slice_from_drop.
Qed.

Lemma history_limit_applies_before_symbol_filter_witness :
  map Order.symbol (OrderEngine.order_history two_symbols) = ["A"; "A_LONG"]
  /\ OrderEngine.get_order_history two_symbols (Some "A") 1
     = of_symbol (Some "A")
         (lastn (Z.to_nat 1) (OrderEngine.order_history two_symbols))
  /\ of_symbol (Some "A")
       (lastn (Z.to_nat 1) (OrderEngine.order_history two_symbols)) = [].
Proof.
  split; [reflexivity|]. split; [|reflexivity].
  apply (history_limit_applies_before_symbol_filter two_symbols (Some "A") 1).
  reflexivity.
Defined.

(** ** Fills *)

(** X13. [execute_order] returns False exactly when the order carries a
    leverage attribute equal to 0 or the ledger has no USDT balance, and
    then neither the ledger, the book nor the order has been changed: a
    call never fails after the balance has been debited. *)
Theorem execute_order_fails_before_any_change :
  forall bm order ep eq,
    (fst (fst (BalanceManager.execute_order bm order ep eq)) = false
     <-> Order.leverage order = Some 0%Z
         \/ BalanceManager.get_balance bm "USDT" = None)
    /\ (fst (fst (BalanceManager.execute_order bm order ep eq)) = false ->
        BalanceManager.execute_order bm order ep eq = (false, bm, order)).
Proof.
  intros bm order ep eq. split; [|apply BalanceFacts.execute_order_fails].
  unfold BalanceManager.get_balance.
  destruct (BalanceManager.required_margin_of order (eq * ep))
    as [rm|] eqn:Hm.
  - destruct (dict_get "USDT" (BalanceManager.balances bm))
      as [usdt|] eqn:Hu.
    + rewrite (ScanFacts.execute_order_success _ _ _ _ _ _ Hu Hm).
      cbn [fst]. split; [discriminate|].
      intros [Hl|Hn]; [|discriminate].
      unfold BalanceManager.required_margin_of in Hm. rewrite Hl in Hm.
      discriminate.
    + unfold BalanceManager.execute_order. rewrite Hm, Hu. cbn [fst].
      split; auto.
  - unfold BalanceManager.execute_order. rewrite Hm. cbn [fst].
    split; auto. intros _. left.
    unfold BalanceManager.required_margin_of in Hm.
    destruct (Order.leverage order) as [l|]; [|discriminate].
    destruct (Z.eqb_spec l 0); [now subst|discriminate].
Qed.

Lemma execute_order_fails_before_any_change_witness :
  BalanceManager.execute_order opened_at_1
    (Order.mk "o3" ADA BUY LONG MARKET 1 0 0 0 PENDING None None 0
              (Some 0%Z)) 1 1
  = (false, opened_at_1,
     Order.mk "o3" ADA BUY LONG MARKET 1 0 0 0 PENDING None None 0
              (Some 0%Z)).
Proof.
  apply (execute_order_fails_before_any_change opened_at_1
           (Order.mk "o3" ADA BUY LONG MARKET 1 0 0 0 PENDING None None 0
                     (Some 0%Z)) 1 1).
  reflexivity.
Defined.

(** X14. A fill that opens a position followed by the same fill on the
    same key closes the position again (a second order on an open key
    always reduces it).  The round trip realizes a PnL of 0 and leaves the
    free balance lower than before by the margin of one fill and two
    commissions: the margin debited for the closing fill is not
    returned. *)
Theorem open_then_close_costs_one_margin :
  forall bm order ep eq usdt rm,
    BalanceManager.get_balance bm "USDT" = Some usdt ->
    BalanceManager.required_margin_of order (eq * ep) = Some rm ->
    BalanceManager.get_position bm
      (BalanceManager.position_key (Order.symbol order)
         (Order.position_side order)) = None ->
    let key := BalanceManager.position_key (Order.symbol order)
                 (Order.position_side order) in
    let bm1 := snd (fst (BalanceManager.execute_order bm order ep eq)) in
    let second := BalanceManager.execute_order bm1 order ep eq in
    let bm2 := snd (fst second) in
    (exists p, BalanceManager.get_position bm1 key = Some p
               /\ Position.quantity p = eq /\ Position.entry_price p = ep
               /\ Position.margin p = rm)
    /\ fst (fst second) = true
    /\ BalanceManager.get_position bm2 key = None
    /\ free_usdt bm2
       == Balance.free usdt - rm
          - 2 * BalanceManager.calculate_commission (eq * ep)
    /\ BalanceManager.total_pnl bm2 == BalanceManager.total_pnl bm.
Proof.
  intros bm order ep eq usdt rm Hu Hm Hk key bm1 second bm2.
  unfold BalanceManager.get_balance in Hu.
  unfold BalanceManager.get_position in Hk. fold key in Hk.
  assert (dict_get key (BalanceManager.positions bm) = None) as Hk'.
  { destruct (dict_get key (BalanceManager.positions bm)); [discriminate|].
    reflexivity. }
  pose proof (BalanceFacts.execute_order_opens bm order ep eq usdt rm
                Hu Hm Hk') as H1. cbv zeta in H1. fold key in H1.
  set (c := BalanceManager.calculate_commission (eq * ep)) in *.
  set (p := Position.mk (Order.symbol order) (Order.position_side order) eq
              ep ep 0 0 Settings.DEFAULT_LEVERAGE rm
              (Order.take_profit_price order)
              (Order.stop_loss_price order)) in *.
  assert (bm1 = BalanceManager.mk (BalanceManager.initial_balance bm)
                  (dict_set "USDT" (Balance.debit usdt (rm + c))
                     (BalanceManager.balances bm))
                  (dict_set key (length (BalanceManager.heap bm))
                     (BalanceManager.positions bm))
                  (BalanceManager.heap bm ++ [p])
                  (BalanceManager.total_pnl bm)) as Hbm1.
  { unfold bm1. now rewrite H1. }
  assert (BalanceManager.deref bm1 (length (BalanceManager.heap bm)) = p)
    as Hd.
  { rewrite Hbm1. unfold BalanceManager.deref.
    cbn [BalanceManager.heap]. apply nth_middle. }
  assert (dict_get "USDT" (BalanceManager.balances bm1)
          = Some (Balance.debit usdt (rm + c))) as Hu1.
  { rewrite Hbm1. cbn [BalanceManager.balances]. apply dict_get_set_eq. }
  assert (dict_get key (BalanceManager.positions bm1)
          = Some (length (BalanceManager.heap bm))) as Hk1.
  { rewrite Hbm1. cbn [BalanceManager.positions]. apply dict_get_set_eq. }
  assert (Qle_bool
            (Position.quantity
               (BalanceManager.deref bm1 (length (BalanceManager.heap bm)))
             - eq) 0 = true) as Hle.
  { rewrite Hd. apply Qle_bool_iff. unfold p. cbn [Position.quantity]. lra. }
  pose proof (BalanceFacts.execute_order_closes bm1 order ep eq _ rm _
                Hu1 Hm Hk1 Hle) as H2. cbv zeta in H2. fold c key in H2.
  split; [|split; [|split; [|split]]].
  - exists p. unfold BalanceManager.get_position. rewrite Hk1.
    cbn [option_map]. rewrite Hd. auto.
  - unfold second. now rewrite H2.
  - unfold bm2, second, BalanceManager.get_position. rewrite H2.
    cbn [fst snd BalanceManager.positions]. now rewrite dict_get_del_eq.
  - unfold bm2, second, free_usdt, BalanceManager.get_balance. rewrite H2.
    cbn [fst snd BalanceManager.balances]. rewrite dict_get_set_eq.
    rewrite Hd. unfold p.
    cbn [Balance.free Balance.credit Balance.debit Position.margin]. ring.
  - unfold bm2, second. rewrite H2.
    cbn [fst snd BalanceManager.total_pnl]. rewrite Hd, Hbm1.
    cbn [BalanceManager.total_pnl].
    unfold BalanceManager.realized_pnl_of, p. cbn [Position.entry_price].
    destruct (String.eqb _ "SHORT"); ring.
Qed.

Lemma open_then_close_costs_one_margin_witness :
  free_usdt
    (snd (fst (BalanceManager.execute_order opened_at_1 buy_order 1 100)))
  == 1000 - 100 * 1 / inject_Z 10
     - 2 * BalanceManager.calculate_commission (100 * 1).
Proof.
  apply (open_then_close_costs_one_margin (BalanceManager.__init__ None)
           buy_order 1 100 (Balance.mk "USDT" 1000 0 1000)
           (100 * 1 / inject_Z 10)); reflexivity.
Defined.

(** X15. On a key that is open in a well-formed book, a fill smaller than
    the position only shrinks it: the position keeps its entry price, its
    margin, its take-profit and stop-loss (those of the order are ignored)
    and every other field, its quantity drops by the executed quantity
    whatever the side and the price of the order, no PnL is realized, and
    the free balance is debited by the margin and the commission of the
    fill. *)
Theorem partial_fill_only_shrinks_the_position :
  forall bm order ep eq usdt rm p,
    book_ok bm ->
    BalanceManager.get_balance bm "USDT" = Some usdt ->
    BalanceManager.required_margin_of order (eq * ep) = Some rm ->
    BalanceManager.get_position bm
      (BalanceManager.position_key (Order.symbol order)
         (Order.position_side order)) = Some p ->
    eq < Position.quantity p ->
    let result := BalanceManager.execute_order bm order ep eq in
    let bm' := snd (fst result) in
    fst (fst result) = true
    /\ BalanceManager.get_position bm'
         (BalanceManager.position_key (Order.symbol order)
            (Order.position_side order))
       = Some (Position.set_quantity p (Position.quantity p - eq))
    /\ free_usdt bm'
       = Balance.free usdt
         - (rm + BalanceManager.calculate_commission (eq * ep))
    /\ BalanceManager.total_pnl bm' = BalanceManager.total_pnl bm.
Proof.
  intros bm order ep eq usdt rm p [_ Hall] Hu Hm Hg Hlt result bm'.
  unfold BalanceManager.get_balance in Hu.
  unfold BalanceManager.get_position in *.
  destruct (dict_get _ (BalanceManager.positions bm)) as [r|] eqn:Hk;
    [|discriminate].
  cbn [option_map] in Hg. injection Hg as Hp.
  assert (Qle_bool (Position.quantity (BalanceManager.deref bm r) - eq) 0
          = false) as Hle.
  { rewrite Hp. destruct (Qle_bool (Position.quantity p - eq) 0) eqn:E; auto.
    apply Qle_bool_iff in E. exfalso. lra. }
  pose proof (BalanceFacts.execute_order_reduces bm order ep eq usdt rm r
                Hu Hm Hk Hle) as Hx. cbv zeta in Hx.
  subst bm' result. rewrite Hx.
  cbn [fst snd BalanceManager.positions BalanceManager.total_pnl].
  rewrite Hk. cbn [option_map]. unfold free_usdt, BalanceManager.get_balance.
  cbn [BalanceManager.balances]. rewrite dict_get_set_eq.
  unfold BalanceManager.deref at 1. cbn [BalanceManager.heap].
  destruct (Hall _ _ (dict_get_In _ _ _ Hk)) as (Hr & _).
  rewrite nth_store_set_eq by exact Hr. rewrite Hp.
  repeat split; reflexivity.
Qed.

Lemma partial_fill_only_shrinks_the_position_witness :
  BalanceManager.get_position
    (snd (fst (BalanceManager.execute_order opened_at_1 sell_long_order
                 2 40))) "ADA-USDT_LONG"
  = Some (Position.set_quantity (BalanceManager.deref opened_at_1 0)
            (Position.quantity (BalanceManager.deref opened_at_1 0) - 40)).
Proof.
  apply (partial_fill_only_shrinks_the_position opened_at_1 sell_long_order
           2 40
           (Balance.debit (Balance.mk "USDT" 1000 0 1000)
              (100 * 1 / inject_Z 10
               + BalanceManager.calculate_commission (100 * 1)))
           (40 * 2 / inject_Z 10)
           (BalanceManager.deref opened_at_1 0)); try reflexivity.
  split; [repeat constructor; simpl; tauto|].
  intros k r [[= <- <-]|[]]. vm_compute. repeat split; reflexivity.
Defined.

(** ** Marking *)

Module MarkFacts.
Import BalanceManager.

(** The store after the loop of [update_position_prices] over a list of
    book entries. *)
Lemma marked_heap symbol cp (l : list (string * nat)) :
  forall bm,
    heap (fold_left
            (fun bm' kr =>
               assign bm' (snd kr) (mark symbol cp (deref bm' (snd kr))))
            l bm)
    = fold_left
        (fun h kr =>
           store_set (snd kr)
             (mark symbol cp (nth (snd kr) h Position.default)) h)
        l (heap bm).
Proof.
  induction l as [|kr l IH]; intros bm; simpl; [reflexivity | apply IH].
Qed.

Lemma marked_nth symbol cp (l : list (string * nat)) :
  forall h r,
    NoDup (map snd l) ->
    (forall k r', In (k, r') l -> (r' < length h)%nat) ->
    nth r
      (fold_left
         (fun h kr =>
            store_set (snd kr)
              (mark symbol cp (nth (snd kr) h Position.default)) h)
         l h) Position.default
    = if in_dec Nat.eq_dec r (map snd l)
      then mark symbol cp (nth r h Position.default)
      else nth r h Position.default.
Proof.
  induction l as [|[k r0] l IH]; intros h r Hnd Hlt; simpl.
  - reflexivity.
  - inversion Hnd as [|? ? Hn Hnd']; subst.
    rewrite IH; auto.
    2:{ intros k' r' Hin. rewrite store_set_length.
        apply (Hlt k' r'). right. exact Hin. }
    destruct (Nat.eq_dec r0 r) as [->|Hne].
    + destruct (in_dec Nat.eq_dec r (map snd l)); [contradiction|].
      apply nth_store_set_eq. apply (Hlt k). now left.
    + rewrite nth_store_set_neq by auto.
      destruct (in_dec Nat.eq_dec r (map snd l)); reflexivity.
Qed.
End MarkFacts.

(** X16. In a well-formed book [update_position_prices(symbol, price)]
    marks every position of the symbol, and only those: such a position
    gets the price as current price and [(price - entry) * quantity]
    (LONG) or [(entry - price) * quantity] (SHORT) as unrealized PnL, with
    every other field kept; positions of other symbols, the keys of the
    book, the balances and the realized total are untouched. *)
Theorem marking_updates_the_positions_of_the_symbol :
  forall bm symbol price k p,
    book_ok bm ->
    BalanceManager.get_position bm k = Some p ->
    let bm' := BalanceManager.update_position_prices bm symbol price in
    BalanceManager.positions bm' = BalanceManager.positions bm
    /\ BalanceManager.balances bm' = BalanceManager.balances bm
    /\ BalanceManager.total_pnl bm' = BalanceManager.total_pnl bm
    /\ (Position.symbol p = symbol ->
        BalanceManager.get_position bm' k
        = Some (Position.set_mark p price
                  (match Position.side p with
                   | LONG => (price - Position.entry_price p)
                             * Position.quantity p
                   | SHORT => (Position.entry_price p - price)
                              * Position.quantity p
                   end)))
    /\ (Position.symbol p <> symbol ->
        BalanceManager.get_position bm' k = Some p).
Proof.
  intros bm symbol price k p [Hnd Hall] Hg bm'.
  destruct (LifecycleFacts.update_position_prices_balances bm symbol price)
    as (Hb & Hp & Ht).
  fold bm' in Hb, Hp, Ht.
  split; [exact Hp|]. split; [exact Hb|]. split; [exact Ht|].
  unfold BalanceManager.get_position in *. rewrite Hp.
  destruct (dict_get k (BalanceManager.positions bm)) as [r|] eqn:Hk;
    [|discriminate].
  cbn [option_map] in *. injection Hg as Hd.
  assert (BalanceManager.deref bm' r
          = BalanceManager.mark symbol price p) as Hm.
  { unfold BalanceManager.deref at 1. unfold bm',
      BalanceManager.update_position_prices.
    rewrite MarkFacts.marked_heap, MarkFacts.marked_nth.
    - destruct (in_dec Nat.eq_dec r
                  (map snd (BalanceManager.positions bm))) as [_|Hn].
      + now rewrite <- Hd.
      + exfalso. apply Hn. apply in_map_iff. exists (k, r).
        split; auto. now apply dict_get_In.
    - exact Hnd.
    - intros k' r' Hin. now destruct (Hall _ _ Hin). }
  rewrite Hm. unfold BalanceManager.mark. split.
  - intros Hs. rewrite Hs, String.eqb_refl.
    destruct (Position.side p); reflexivity.
  - intros Hs. destruct (String.eqb_spec (Position.symbol p) symbol);
      [contradiction|reflexivity].
Qed.

Lemma marking_updates_the_positions_of_the_symbol_witness :
  BalanceManager.get_position
    (BalanceManager.update_position_prices opened_at_1 ADA 2)
    "ADA-USDT_LONG"
  = Some (Position.set_mark (BalanceManager.deref opened_at_1 0) 2
            ((2 - 1) * 100)).
Proof.
  apply (marking_updates_the_positions_of_the_symbol opened_at_1 ADA 2
           "ADA-USDT_LONG" (BalanceManager.deref opened_at_1 0));
    try reflexivity.
  split; [repeat constructor; simpl; tauto|].
  intros k r [[= <- <-]|[]]. vm_compute. repeat split; reflexivity.
Defined.

(** ** The two scans *)

Module TriggerFacts.
Import OrderEngine.

Lemma truthy_iff x v : truthy x = Some v <-> x = Some v /\ ~ v == 0.
Proof.
  unfold truthy. split.
  - destruct x as [w|]; [|discriminate].
    destruct (Qeq_bool w 0) eqn:E; [discriminate|].
    intros [= <-]. split; auto. now apply Qeq_bool_neq.
  - intros [-> Hn]. destruct (Qeq_bool v 0) eqn:E; auto.
    apply Qeq_bool_iff in E. contradiction.
Qed.

(** The entries of one position: one per breached threshold. *)
Lemma triggers_of_iff r p high low r' tt x :
  In (r', tt, x) (triggers_of r p high low)
  <-> r' = r
      /\ ((tt = "TP" /\ tp_breached p high low x)
          \/ (tt = "SL" /\ sl_breached p high low x)).
Proof.
  unfold triggers_of, tp_breached, sl_breached.
  rewrite in_app_iff. split.
  - intros [Hin|Hin].
    + destruct (truthy (Position.take_profit_price p)) as [tp|] eqn:Ht;
        [|destruct Hin].
      apply truthy_iff in Ht. destruct Ht as [Ht Hn].
      destruct (Position.side p); cbn in Hin;
        match type of Hin with
        | In _ (if ?c then _ else _) => destruct c eqn:E
        end;
        [|destruct Hin| |destruct Hin];
        destruct Hin as [[= <- <- <-]|[]];
        apply Qle_bool_iff in E; split; auto; left; auto.
    + destruct (truthy (Position.stop_loss_price p)) as [sl|] eqn:Ht;
        [|destruct Hin].
      apply truthy_iff in Ht. destruct Ht as [Ht Hn].
      destruct (Position.side p); cbn in Hin;
        match type of Hin with
        | In _ (if ?c then _ else _) => destruct c eqn:E
        end;
        [|destruct Hin| |destruct Hin];
        destruct Hin as [[= <- <- <-]|[]];
        apply Qle_bool_iff in E; split; auto; right; auto.
  - intros [-> [[-> (Ht & Hn & Hb)]|[-> (Ht & Hn & Hb)]]].
    + left. rewrite (proj2 (truthy_iff _ _) (conj Ht Hn)).
      destruct (Position.side p); cbn;
        apply Qle_bool_iff in Hb; rewrite Hb; now left.
    + right. rewrite (proj2 (truthy_iff _ _) (conj Ht Hn)).
      destruct (Position.side p); cbn;
        apply Qle_bool_iff in Hb; rewrite Hb; now left.
Qed.

(** [check_tp_sl] flags a position exactly when the improved scan has an
    entry for it. *)
Lemma should_close_iff r p high low :
  BalanceManager.should_close p high low = true
  <-> triggers_of r p high low <> [].
Proof.
  unfold BalanceManager.should_close, triggers_of.
  destruct (truthy (Position.take_profit_price p)) as [tp|];
    destruct (truthy (Position.stop_loss_price p)) as [sl|];
    destruct (Position.side p); cbn;
    repeat match goal with
           | |- context [Qle_bool ?a ?b] => destruct (Qle_bool a b)
           end;
    cbn; split; intros H; try discriminate; try reflexivity;
    try (exfalso; apply H; reflexivity).
Qed.
End TriggerFacts.

(** X17. The candle scan lists exactly the breached thresholds: an entry
    (position, type, price) is in the result of [_check_tp_sl_improved] if
    and only if the position is in the book under the candle's symbol and
    the price is its take-profit (type "TP") or its stop-loss (type "SL"),
    set and different from 0, and reached by the candle: high at or above a
    LONG take-profit or a SHORT stop-loss, low at or below a SHORT
    take-profit or a LONG stop-loss.  A threshold of 0 is treated as not
    set. *)
Theorem scan_lists_exactly_the_breached_thresholds :
  forall e symbol open_price high low close r tt x,
    In (r, tt, x)
       (OrderEngine._check_tp_sl_improved e symbol open_price high low close)
    <-> (exists k,
            In (k, r)
               (BalanceManager.positions (OrderEngine.balance_manager e)))
        /\ Position.symbol
             (BalanceManager.deref (OrderEngine.balance_manager e) r)
           = symbol
        /\ ((tt = "TP"
             /\ tp_breached
                  (BalanceManager.deref (OrderEngine.balance_manager e) r)
                  high low x)
            \/ (tt = "SL"
                /\ sl_breached
                     (BalanceManager.deref (OrderEngine.balance_manager e) r)
                     high low x)).
Proof.
  intros e symbol open_price high low close r tt x.
  unfold OrderEngine._check_tp_sl_improved. rewrite in_flat_map. split.
  - intros [[k r0] [Hin Ht]]. cbn [snd] in Ht.
    destruct (String.eqb_spec
                (Position.symbol
                   (BalanceManager.deref (OrderEngine.balance_manager e) r0))
                symbol) as [Hs|]; [|destruct Ht].
    apply TriggerFacts.triggers_of_iff in Ht. destruct Ht as [-> Ht].
    split; [now exists k|]. split; auto.
  - intros [[k Hin] [Hs Ht]]. exists (k, r). split; auto. cbn [snd].
    rewrite Hs, String.eqb_refl. apply TriggerFacts.triggers_of_iff. auto.
Qed.

(** X18. The older scan [check_tp_sl] returns a position exactly when
    [_check_tp_sl_improved] has at least one entry for it, and, in a
    well-formed book, it returns no position twice, whereas the improved
    scan has one entry per breached threshold. *)
Theorem check_tp_sl_names_each_position_once :
  forall e symbol current_price open_price high low close,
    (forall r,
        In r (BalanceManager.check_tp_sl (OrderEngine.balance_manager e)
                symbol current_price high low)
        <-> exists tt x,
              In (r, tt, x)
                 (OrderEngine._check_tp_sl_improved e symbol open_price high
                    low close))
    /\ (book_ok (OrderEngine.balance_manager e) ->
        NoDup (BalanceManager.check_tp_sl (OrderEngine.balance_manager e)
                 symbol current_price high low)).
Proof.
  intros e symbol current_price open_price high low close. split.
  - intros r. unfold BalanceManager.check_tp_sl,
      OrderEngine._check_tp_sl_improved. rewrite in_flat_map. split.
    + intros [[k r0] [Hin Hr]]. cbn [snd] in Hr.
      destruct (String.eqb _ symbol) eqn:Hs; [|destruct Hr].
      destruct (BalanceManager.should_close _ high low) eqn:Hc;
        [|destruct Hr].
      destruct Hr as [<-|[]].
      apply (TriggerFacts.should_close_iff r0) in Hc.
      destruct (OrderEngine.triggers_of r0 _ high low)
        as [|[[r1 tt] x] rest] eqn:Ht; [contradiction|].
      assert (In (r1, tt, x)
                (OrderEngine.triggers_of r0
                   (BalanceManager.deref (OrderEngine.balance_manager e) r0)
                   high low)) as Hin1 by (rewrite Ht; now left).
      pose proof Hin1 as Hin2.
      apply TriggerFacts.triggers_of_iff in Hin2. destruct Hin2 as [-> _].
      exists tt, x. apply in_flat_map. exists (k, r0). split; auto.
      cbn [snd]. now rewrite Hs.
    + intros (tt & x & Hin). apply in_flat_map in Hin.
      destruct Hin as [[k r0] [Hin Ht]]. cbn [snd] in Ht.
      destruct (String.eqb _ symbol) eqn:Hs; [|destruct Ht].
      pose proof Ht as Ht'.
      apply TriggerFacts.triggers_of_iff in Ht'. destruct Ht' as [-> _].
      exists (k, r0). split; auto. cbn [snd]. rewrite Hs.
      rewrite (proj2 (TriggerFacts.should_close_iff r0 _ high low)).
      * now left.
      * intros Hnil. rewrite Hnil in Ht. destruct Ht.
  - intros [Hnd _]. unfold BalanceManager.check_tp_sl.
    unfold dict_values in Hnd.
    induction (BalanceManager.positions (OrderEngine.balance_manager e))
      as [|[k r] l IH]; simpl; [constructor|].
    inversion Hnd as [|? ? Hn Hnd']; subst.
    assert (forall x,
               In x (flat_map
                       (fun kr : string * nat =>
                          if String.eqb
                               (Position.symbol
                                  (BalanceManager.deref
                                     (OrderEngine.balance_manager e) (snd kr)))
                               symbol
                          then
                            if BalanceManager.should_close
                                 (BalanceManager.deref
                                    (OrderEngine.balance_manager e) (snd kr))
                                 high low
                            then [snd kr] else []
                          else []) l) ->
               In x (map snd l)) as Hsub.
    { intros x Hx. apply in_flat_map in Hx. destruct Hx as [[k' r'] [Hi Hx]].
      cbn [snd] in Hx. apply in_map_iff. exists (k', r').
      destruct (String.eqb _ symbol); [|destruct Hx].
      destruct (BalanceManager.should_close _ high low); [|destruct Hx].
      destruct Hx as [<-|[]]. auto. }
    destruct (String.eqb _ symbol); [|now apply IH].
    destruct (BalanceManager.should_close _ high low); [|now apply IH].
    simpl. constructor; [|now apply IH].
    intros Hx. apply Hn. now apply Hsub.
Qed.

Lemma check_tp_sl_names_each_position_once_witness :
  NoDup (BalanceManager.check_tp_sl (OrderEngine.balance_manager long_100)
           ADA 1 (110 # 100) (90 # 100))
  /\ length (OrderEngine._check_tp_sl_improved long_100 ADA 1 (110 # 100)
               (90 # 100) 1) = 2%nat.
Proof.
  split; [|reflexivity].
  apply (check_tp_sl_names_each_position_once long_100 ADA 1 1 (110 # 100)
           (90 # 100) 1).
  split; [repeat constructor; simpl; tauto|].
  intros k r [[= <- <-]|[]]. vm_compute. repeat split; reflexivity.
Defined.

(** ** The look-ahead of the order endpoint *)

Module LookaheadFacts.
Import Server.

(** The price difference the look-ahead multiplies by quantity and
    leverage. *)
Lemma trigger_on_scan T (p : Position.t) (now ts : T) (h l c : Q) :
  trigger_on T p now (ts, h, l, c)
  = match OrderEngine.triggers_of 0 p h l with
    | [] => None
    | (_, kind, x) :: _ =>
        Some (mk_result T true (Some kind) (Some x) (Some ts)
                (match Position.side p with
                 | LONG => x - Position.entry_price p
                 | SHORT => Position.entry_price p - x
                 end * Position.quantity p
                 * inject_Z (Position.leverage p)) now)
    end.
Proof.
  unfold trigger_on, OrderEngine.triggers_of.
  destruct (truthy (Position.take_profit_price p)) as [tp|];
    destruct (truthy (Position.stop_loss_price p)) as [sl|];
    destruct (Position.side p); cbn;
    repeat match goal with
           | |- context [Qle_bool ?a ?b] => destruct (Qle_bool a b)
           end;
    reflexivity.
Qed.

Lemma scan_future_first T (p : Position.t) (now : T) before :
  forall ts h l c after,
    (forall ts' h' l' c',
        In (ts', h', l', c') before ->
        OrderEngine.triggers_of 0 p h' l' = []) ->
    scan_future T p now (before ++ (ts, h, l, c) :: after)
    = match trigger_on T p now (ts, h, l, c) with
      | Some res => Some res
      | None => scan_future T p now after
      end.
Proof.
  induction before as [|[[[ts0 h0] l0] c0] before IH];
    intros ts h l c after Hb.
  - reflexivity.
  - cbn [app scan_future]. rewrite trigger_on_scan.
    rewrite (Hb ts0 h0 l0 c0 (or_introl eq_refl)).
    apply IH. intros ts' h' l' c' Hin. apply (Hb ts' h' l' c'). now right.
Qed.

Lemma scan_future_none T (p : Position.t) (now : T) future :
  (forall ts h l c,
      In (ts, h, l, c) future -> OrderEngine.triggers_of 0 p h l = []) ->
  scan_future T p now future = None.
Proof.
  induction future as [|[[[ts0 h0] l0] c0] future IH]; intros Hb.
  - reflexivity.
  - cbn [scan_future]. rewrite trigger_on_scan.
    rewrite (Hb ts0 h0 l0 c0 (or_introl eq_refl)).
    apply IH. intros ts h l c Hin. apply (Hb ts h l c). now right.
Qed.
End LookaheadFacts.

(** X19. The look-ahead of the order endpoint reports one trigger at most:
    on the first future candle for which the candle scan would list the
    position, it reports the first entry of that scan (the take-profit when
    the candle breaches both thresholds), with the timestamp of that candle
    and the price difference times quantity times leverage as PnL.  When no
    future candle breaches a threshold, it reports no trigger and the PnL
    at the current price (0 when there is no current price, or a price of
    0).  Without a position it returns nothing. *)
Theorem lookahead_reports_the_first_trigger :
  forall (T : Type) (p : Position.t) (now : T) future current_price,
    Server._simulate_immediate_execution T None now future current_price
    = None
    /\ (forall before ts h l c after r tt x rest,
           future = (before ++ (ts, h, l, c) :: after)%list ->
           (forall ts' h' l' c',
               In (ts', h', l', c') before ->
               OrderEngine.triggers_of 0 p h' l' = []) ->
           OrderEngine.triggers_of 0 p h l = (r, tt, x) :: rest ->
           Server._simulate_immediate_execution T (Some p) now future
             current_price
           = Some (Server.mk_result T true (Some tt) (Some x) (Some ts)
                     (match Position.side p with
                      | LONG => x - Position.entry_price p
                      | SHORT => Position.entry_price p - x
                      end * Position.quantity p
                      * inject_Z (Position.leverage p)) now))
    /\ ((forall ts h l c,
            In (ts, h, l, c) future ->
            OrderEngine.triggers_of 0 p h l = []) ->
        Server._simulate_immediate_execution T (Some p) now future
          current_price
        = Some (Server.mk_result T false None None None
                  (match truthy current_price with
                   | Some cp =>
                       match Position.side p with
                       | LONG => cp - Position.entry_price p
                       | SHORT => Position.entry_price p - cp
                       end * Position.quantity p
                       * inject_Z (Position.leverage p)
                   | None => 0
                   end) now)).
Proof.
  intros T p now future current_price. split; [reflexivity|]. split.
  - intros before ts h l c after r tt x rest -> Hb Ht.
    unfold Server._simulate_immediate_execution.
    rewrite (LookaheadFacts.scan_future_first T p now before ts h l c after
               Hb).
    rewrite LookaheadFacts.trigger_on_scan, Ht. reflexivity.
  - intros Hb. unfold Server._simulate_immediate_execution.
    rewrite (LookaheadFacts.scan_future_none T p now future Hb).
    destruct (truthy current_price); [|reflexivity].
    destruct (Position.side p); reflexivity.
Qed.

Lemma lookahead_reports_the_first_trigger_witness :
  Server._simulate_immediate_execution nat
    (Some (BalanceManager.deref (OrderEngine.balance_manager long_100) 0))
    0%nat
    [ (1%nat, 102 # 100, 99 # 100, 1); (2%nat, 110 # 100, 90 # 100, 1);
      (3%nat, 1, 80 # 100, 1) ]
    (Some 1)
  = Some (Server.mk_result nat true (Some "TP") (Some (105 # 100))
            (Some 2%nat)
            (((105 # 100)
              - Position.entry_price
                  (BalanceManager.deref (OrderEngine.balance_manager long_100)
                     0))
             * Position.quantity
                 (BalanceManager.deref (OrderEngine.balance_manager long_100)
                    0)
             * inject_Z
                 (Position.leverage
                    (BalanceManager.deref
                       (OrderEngine.balance_manager long_100) 0)))
            0%nat).
Proof.
  apply (proj1 (proj2 (lookahead_reports_the_first_trigger nat
                         (BalanceManager.deref
                            (OrderEngine.balance_manager long_100) 0)
                         0%nat
                         [ (1%nat, 102 # 100, 99 # 100, 1);
                           (2%nat, 110 # 100, 90 # 100, 1);
                           (3%nat, 1, 80 # 100, 1) ]
                         (Some 1)))
           [(1%nat, 102 # 100, 99 # 100, 1)] 2%nat (110 # 100) (90 # 100) 1
           [(3%nat, 1, 80 # 100, 1)] 0%nat "TP" (105 # 100)
           [(0%nat, "SL", 95 # 100)]).
  - reflexivity.
  - intros ts' h' l' c' [[= <- <- <- <-]|[]]. reflexivity.
  - reflexivity.
Defined.

(** ** The simulation clock *)

(** X20. [get_5m_boundary_time] works in the first hour of the day only:
    for a time with hour 0 it returns the same date and hour with the
    minute rounded down to a multiple of 5 and zero seconds and
    microseconds; for any later hour the minute it computes is 60 or more
    and the call raises [ValueError]. *)
Theorem five_minute_boundary_fails_after_the_first_hour :
  forall d,
    TimeManager.valid_time d ->
    (TimeManager.hour d = 0%Z ->
     exists m,
       TimeManager.get_5m_boundary_time d
       = Some (TimeManager.mk_datetime (TimeManager.year d)
                 (TimeManager.month d) (TimeManager.day d) 0 m 0 0)
       /\ (m mod 5 = 0 /\ m <= TimeManager.minute d < m + 5)%Z)
    /\ ((0 < TimeManager.hour d)%Z ->
        TimeManager.get_5m_boundary_time d = None).
Proof.
  intros d (Hh & Hm & _). unfold TimeManager.get_5m_boundary_time,
    TimeManager.replace_minute. split.
  - intros H0. rewrite H0.
    exists (TimeManager.minute d / 5 * 5)%Z.
    replace (TimeManager.minute d + 0 * 60)%Z with (TimeManager.minute d)
      by lia.
    assert (0 <= TimeManager.minute d / 5 * 5 <= 59)%Z as Hr
        by (Z.div_mod_to_equations; lia).
    destruct Hr as [Hr1 Hr2].
    apply Z.leb_le in Hr1, Hr2. rewrite Hr1, Hr2. cbn [andb].
    split; [reflexivity|]. Z.div_mod_to_equations. lia.
  - intros Hpos.
    assert (59 < (TimeManager.minute d + TimeManager.hour d * 60) / 5 * 5)%Z
      as Hr by (Z.div_mod_to_equations; lia).
    apply Z.leb_gt in Hr. rewrite Hr. now rewrite andb_false_r.
Qed.

Lemma five_minute_boundary_fails_after_the_first_hour_witness :
  TimeManager.get_5m_boundary_time
    (TimeManager.mk_datetime 2024 1 15 9 32 10 0) = None
  /\ TimeManager.get_5m_boundary_time
       (TimeManager.mk_datetime 2024 1 15 0 32 10 0)
     = Some (TimeManager.mk_datetime 2024 1 15 0 30 0 0).
Proof.
  split; [|reflexivity].
  apply (five_minute_boundary_fails_after_the_first_hour
           (TimeManager.mk_datetime 2024 1 15 9 32 10 0)).
  - unfold TimeManager.valid_time. simpl. lia.
  - reflexivity.
Defined.

(** ** What a fill leaves alone *)

Module FrameFacts.
Import BalanceManager.

Lemma string_append_inj (s a b : string) : s ++ a = s ++ b -> a = b.
Proof.
  induction s as [|c s IH]; simpl; intros H; auto.
  injection H as H. auto.
Qed.

Lemma position_key_side symbol d1 d2 :
  position_key symbol d1 = position_key symbol d2 -> d1 = d2.
Proof.
  unfold position_key. intros H. apply string_append_inj in H.
  destruct d1, d2; auto; discriminate.
Qed.

(** [execute_order] changes the entry of one key only, and the object
    behind it. *)
Lemma execute_order_frame bm order ep eq k :
  book_ok bm ->
  k <> position_key (Order.symbol order) (Order.position_side order) ->
  let bm' := snd (fst (execute_order bm order ep eq)) in
  dict_get k (positions bm') = dict_get k (positions bm)
  /\ forall r, dict_get k (positions bm) = Some r ->
               deref bm' r = deref bm r.
Proof.
  intros [Hnd Hall] Hne.
  set (key := position_key (Order.symbol order) (Order.position_side order))
    in *.
  destruct (required_margin_of order (eq * ep)) as [rm|] eqn:Hm.
  2:{ unfold execute_order. rewrite Hm. cbn [fst snd]. auto. }
  destruct (dict_get "USDT" (balances bm)) as [usdt|] eqn:Hu.
  2:{ unfold execute_order. rewrite Hm, Hu. cbn [fst snd]. auto. }
  assert (forall r r0, dict_get k (positions bm) = Some r ->
                       dict_get key (positions bm) = Some r0 -> r0 <> r)
    as Hdiff.
  { intros r r0 H1 H2 ->. apply Hne. symmetry.
    apply (NoDup_values_unique (positions bm) key k r Hnd);
      now apply dict_get_In. }
  destruct (dict_get key (positions bm)) as [r0|] eqn:Hk.
  - destruct (Qle_bool (Position.quantity (deref bm r0) - eq) 0) eqn:Hle.
    + rewrite (BalanceFacts.execute_order_closes _ _ _ _ _ _ _
                 Hu Hm Hk Hle).
      cbn [fst snd positions]. fold key. split.
      * apply dict_get_del_neq. auto.
      * intros r Hr. unfold deref. cbn [heap].
        rewrite !nth_store_set_neq; auto.
    + rewrite (BalanceFacts.execute_order_reduces _ _ _ _ _ _ _
                 Hu Hm Hk Hle).
      cbn [fst snd positions]. split; auto.
      intros r Hr. unfold deref. cbn [heap].
      rewrite nth_store_set_neq; auto.
  - rewrite (BalanceFacts.execute_order_opens _ _ _ _ _ _ Hu Hm Hk).
    cbn [fst snd positions]. fold key. split.
    + apply dict_get_set_neq. auto.
    + intros r Hr. unfold deref. cbn [heap].
      apply app_nth1. apply dict_get_In in Hr.
      now destruct (Hall _ _ Hr).
Qed.
End FrameFacts.

(** X21. In a well-formed book a fill touches the position of its own key
    only: whatever the order, every position stored under another key is
    found unchanged after [execute_order]. *)
Theorem fill_leaves_other_positions_alone :
  forall bm order ep eq k p,
    book_ok bm ->
    BalanceManager.get_position bm k = Some p ->
    k <> BalanceManager.position_key (Order.symbol order)
           (Order.position_side order) ->
    BalanceManager.get_position
      (snd (fst (BalanceManager.execute_order bm order ep eq))) k = Some p.
Proof.
  intros bm order ep eq k p Hb Hg Hne.
  destruct (FrameFacts.execute_order_frame bm order ep eq k Hb Hne)
    as [Hk Hd].
  unfold BalanceManager.get_position in *. rewrite Hk.
  destruct (dict_get k (BalanceManager.positions bm)) as [r|] eqn:Hr;
    [|discriminate].
  cbn [option_map] in *. now rewrite (Hd r eq_refl).
Qed.

Lemma fill_leaves_other_positions_alone_witness :
  BalanceManager.get_position
    (snd (fst (BalanceManager.execute_order opened_at_1
                 (Order.mk "o5" ADA SELL SHORT MARKET 100 0 0 0 PENDING
                           None None 0 (Some 10%Z)) (105 # 100) 100)))
    "ADA-USDT_LONG"
  = Some (BalanceManager.deref opened_at_1 0).
Proof.
  apply (fill_leaves_other_positions_alone opened_at_1
           (Order.mk "o5" ADA SELL SHORT MARKET 100 0 0 0 PENDING
                     None None 0 (Some 10%Z)) (105 # 100) 100
           "ADA-USDT_LONG" (BalanceManager.deref opened_at_1 0)).
  - split; [repeat constructor; simpl; tauto|].
    intros k r [[= <- <-]|[]]. vm_compute. repeat split; reflexivity.
  - reflexivity.
  - discriminate.
Defined.

(** X22. The closing order that [process_candle] synthesizes for a trigger
    never changes the position that triggered it: the order is a sell for
    a LONG position and a buy for a SHORT one, [create_order] derives the
    direction of an order from its side, so the order is executed on the
    opposite key of the symbol, and in a well-formed book the position of
    the trigger is found unchanged after the iteration. *)
Theorem closing_order_misses_its_position :
  forall e uuid symbol high low k r tt x,
    book_ok (OrderEngine.balance_manager e) ->
    dict_get k (BalanceManager.positions (OrderEngine.balance_manager e))
    = Some r ->
    Position.symbol (BalanceManager.deref (OrderEngine.balance_manager e) r)
    = symbol ->
    let e' := OrderEngine.close_one e uuid symbol high low (r, tt, x) in
    BalanceManager.get_position (OrderEngine.balance_manager e') k
    = Some (BalanceManager.deref (OrderEngine.balance_manager e) r).
Proof.
  intros e uuid symbol high low k r tt x Hb Hk Hs e'.
  assert (BalanceManager.get_position (OrderEngine.balance_manager e) k
          = Some (BalanceManager.deref (OrderEngine.balance_manager e) r))
    as Hg.
  { unfold BalanceManager.get_position. now rewrite Hk. }
  subst e'. unfold OrderEngine.close_one.
  match goal with
  | |- context [OrderEngine.create_order ?a ?b ?c ?d ?q ?f ?g ?h ?i ?j] =>
      destruct (OrderEngine.create_order a b c d q f g h i j)
        as [[reason|order] e1] eqn:Hc
  end.
  - now rewrite (EngineFacts.create_order_rejected
                   _ _ _ _ _ _ _ _ _ _ _ _ Hc).
  - destruct (EngineFacts.create_order_created _ _ _ _ _ _ _ _ _ _ _ _ Hc)
      as (-> & _ & _ & oside & otype & _ & _ & Ho).
    unfold OrderEngine.execute_market_order.
    cbn [OrderEngine.balance_manager].
    pose proof (fun ep eq Hne =>
                  FrameFacts.execute_order_frame
                    (OrderEngine.balance_manager e) order ep eq k Hb Hne)
      as Hf.
    specialize (Hf (OrderEngine.execution_price_of order x)
                  (Order.quantity order)).
    destruct (BalanceManager.execute_order (OrderEngine.balance_manager e)
                order (OrderEngine.execution_price_of order x)
                (Order.quantity order)) as [[ok bm'] o'].
    cbn [fst snd] in Hf.
    assert (k <> BalanceManager.position_key (Order.symbol order)
                   (Order.position_side order)) as Hne.
    { destruct Hb as [_ Hall].
      destruct (Hall _ _ (dict_get_In _ _ _ Hk)) as (_ & _ & Hkey).
      unfold BalanceManager.deref in Hs. rewrite Hs in Hkey.
      rewrite Hkey, Ho.
      cbn [Order.symbol Order.position_side].
      intros Heq. apply FrameFacts.position_key_side in Heq.
      unfold BalanceManager.deref in Heq.
      destruct (Position.side
                  (nth r (BalanceManager.heap (OrderEngine.balance_manager e))
                     Position.default));
        cbn in Heq; discriminate. }
    destruct (Hf Hne) as [Hk' Hd].
    assert (BalanceManager.get_position bm' k
            = Some (BalanceManager.deref (OrderEngine.balance_manager e) r))
      as Hg'.
    { unfold BalanceManager.get_position. rewrite Hk', Hk.
      cbn [option_map]. now rewrite (Hd r Hk). }
    destruct ok; cbn [fst snd OrderEngine.balance_manager]; exact Hg'.
Qed.

Lemma closing_order_misses_its_position_witness :
  BalanceManager.get_position
    (OrderEngine.balance_manager
       (OrderEngine.close_one long_100 "c0" ADA (110 # 100) (99 # 100)
          (0%nat, "TP", 105 # 100)))
    "ADA-USDT_LONG"
  = Some (BalanceManager.deref (OrderEngine.balance_manager long_100) 0).
Proof.
  apply (closing_order_misses_its_position long_100 "c0" ADA (110 # 100)
           (99 # 100) "ADA-USDT_LONG" 0%nat "TP" (105 # 100)).
  - split; [repeat constructor; simpl; tauto|].
    intros k r [[= <- <-]|[]]. vm_compute. repeat split; reflexivity.
  - reflexivity.
  - reflexivity.
Defined.
